(** * A shallow embedding of [src/websocket_client.py] (WebSocketDashboardClient)

    The client is modelled by explicit state passing: every method becomes a
    function from the client state to its result and the new state.  The
    library functions [json.dumps] and [gzip.compress]+[base64.b64encode] are
    kept abstract as Section variables; frames written to the socket are
    recorded as the JSON values they denote ([json.loads] of the frame text).
    Clock readings ([time.time()], [datetime.now().isoformat()]) and the
    outcome of [websocket.send] are explicit inputs of each call. *)

From Stdlib Require Import ZArith Sorted QArith.
From stdpp Require Import base strings gmap list.

Open Scope string_scope.
Open Scope Z_scope.
Set Warnings "-register-all".

(** JSON values, as produced by [json.loads] / consumed by [json.dumps]. *)
Inductive json : Type :=
| JNull
| JBool (b : bool)
| JNum (z : Z)
| JStr (s : string)
| JArr (l : list json)
| JObj (l : list (string * json)).

(** [dict.get(key)] on a decoded JSON object. *)
Fixpoint obj_get (k : string) (l : list (string * json)) : option json :=
  match l with
  | [] => None
  | (k', v) :: l' => if String.eqb k k' then Some v else obj_get k l'
  end.

Definition json_get (k : string) (v : json) : option json :=
  match v with JObj l => obj_get k l | _ => None end.

(** [@dataclass DashboardMessage] *)
Record DashboardMessage : Type := mkMessage {
  message_type : string;
  timestamp : string;
  data : json;
  system_id : string;
  sequence_id : Z
}.

(** [dataclasses.asdict(msg)] *)
Definition asdict (m : DashboardMessage) : json :=
  JObj [("message_type", JStr (message_type m));
        ("timestamp", JStr (timestamp m));
        ("data", data m);
        ("system_id", JStr (system_id m));
        ("sequence_id", JNum (sequence_id m))].

(** The constructor arguments the client copies out of its config dict in
    [__init__]; none of them is written again afterwards. *)
Record settings : Type := mkSettings {
  max_reconnect_attempts : Z;
  reconnect_delay : Z;
  max_reconnect_delay : Z;
  client_system_id : string;     (* self.system_id *)
  compress_data : bool;
  batch_size : Z;
  send_interval : Z
}.

(** The mutable attributes of the client.  [sequence_counter] is
    [self.sequence_id]; [wire] lists the frames written to the socket. *)
Record client : Type := mkClient {
  config : gmap string json;
  websocket : option nat;
  is_connected : bool;
  is_running : bool;
  reconnect_attempts : Z;
  sequence_counter : Z;
  message_queue : list DashboardMessage;
  stats : gmap string json;
  wire : list json
}.

Definition set_connected (b : bool) (s : client) : client :=
  mkClient (config s) (websocket s) b (is_running s) (reconnect_attempts s)
    (sequence_counter s) (message_queue s) (stats s) (wire s).
Definition set_websocket (w : option nat) (s : client) : client :=
  mkClient (config s) w (is_connected s) (is_running s) (reconnect_attempts s)
    (sequence_counter s) (message_queue s) (stats s) (wire s).
Definition set_running (b : bool) (s : client) : client :=
  mkClient (config s) (websocket s) (is_connected s) b (reconnect_attempts s)
    (sequence_counter s) (message_queue s) (stats s) (wire s).
Definition set_attempts (n : Z) (s : client) : client :=
  mkClient (config s) (websocket s) (is_connected s) (is_running s) n
    (sequence_counter s) (message_queue s) (stats s) (wire s).
Definition set_counter (n : Z) (s : client) : client :=
  mkClient (config s) (websocket s) (is_connected s) (is_running s)
    (reconnect_attempts s) n (message_queue s) (stats s) (wire s).
Definition set_queue (q : list DashboardMessage) (s : client) : client :=
  mkClient (config s) (websocket s) (is_connected s) (is_running s)
    (reconnect_attempts s) (sequence_counter s) q (stats s) (wire s).
Definition set_stats (st : gmap string json) (s : client) : client :=
  mkClient (config s) (websocket s) (is_connected s) (is_running s)
    (reconnect_attempts s) (sequence_counter s) (message_queue s) st (wire s).
Definition set_wire (w : list json) (s : client) : client :=
  mkClient (config s) (websocket s) (is_connected s) (is_running s)
    (reconnect_attempts s) (sequence_counter s) (message_queue s) (stats s) w.
Definition set_config (c : gmap string json) (s : client) : client :=
  mkClient c (websocket s) (is_connected s) (is_running s)
    (reconnect_attempts s) (sequence_counter s) (message_queue s) (stats s) (wire s).

(** [self.stats[k] += d] *)
Definition incr_stat (k : string) (d : Z) (st : gmap string json)
  : gmap string json :=
  match st !! k with
  | Some (JNum n) => <[k := JNum (n + d)]> st
  | _ => st
  end.

(** The [self.stats] dict built by [__init__]. *)
Definition initial_stats : gmap string json :=
  list_to_map [("messages_sent", JNum 0); ("messages_failed", JNum 0);
               ("bytes_sent", JNum 0); ("connection_uptime", JNum 0);
               ("last_heartbeat", JNull); ("reconnections", JNum 0)].

(** [_get_next_sequence_id] *)
Definition get_next_sequence_id (s : client) : Z * client :=
  let n := sequence_counter s + 1 in (n, set_counter n s).

Section Codec.

(** [json.dumps] (text of a JSON value) and
    [base64.b64encode(gzip.compress(text.encode('utf-8'))).decode('utf-8')]. *)
Variable json_dumps : json -> string.
Variable gzip_b64 : string -> string.

(** The frame [_send_raw_message] writes for [message]. *)
Definition encode (compress : bool) (m : DashboardMessage) : json :=
  if compress
  then JObj [("compressed", JBool true);
             ("data", JStr (gzip_b64 (json_dumps (asdict m))))]
  else asdict m.

(** [_send_raw_message]; [ok] is whether [websocket.send] returns normally. *)
Definition send_raw_message (p : settings) (ok : bool) (m : DashboardMessage)
    (s : client) : bool * client :=
  if negb (is_connected s) || bool_decide (websocket s = None) then (false, s)
  else
    let final := encode (compress_data p) m in
    if ok then
      (true, set_wire (wire s ++ [final])
               (set_stats (incr_stat "bytes_sent"
                              (Z.of_nat (String.length (json_dumps final)))
                              (incr_stat "messages_sent" 1 (stats s))) s))
    else
      (false, set_connected false
                (set_stats (incr_stat "messages_failed" 1 (stats s)) s)).


(** ** Publishers: [send_portfolio_data], [send_trade_signal],
    [send_risk_alert], [send_system_status].  Each draws a sequence id and
    appends the envelope to [self.message_queue] ([asyncio.Queue.put]).
    The functions that draw an id also return the envelope they built, so
    that the id it carries can be observed. *)
Definition new_envelope (ty ts : string) (d : json) (p : settings) (s : client)
  : DashboardMessage * client :=
  let '(n, s1) := get_next_sequence_id s in
  (mkMessage ty ts d (client_system_id p) n, s1).

Definition enqueue_new (ty ts : string) (d : json) (p : settings) (s : client)
  : DashboardMessage * client :=
  let '(m, s1) := new_envelope ty ts d p s in
  (m, set_queue (message_queue s1 ++ [m]) s1).

Definition send_portfolio_data (p : settings) (ts : string) (d : json) :=
  enqueue_new "portfolio_update" ts d p.
Definition send_trade_signal (p : settings) (ts : string) (d : json) :=
  enqueue_new "trade_signal" ts d p.
Definition send_risk_alert (p : settings) (ts : string) (d : json) :=
  enqueue_new "risk_alert" ts d p.

(** The [status_data] dict of [send_system_status].  The code stores
    references to [self.stats] and [self.config], which are read only when
    [asdict] serializes the envelope; this value records their contents at
    the call, so it agrees with the frame only while neither dict changes
    between the call and the send.  Nothing below depends on the contents. *)
Definition status_data (s : client) : json :=
  JObj [("status", JStr (if is_running s then "running" else "stopped"));
        ("connection", JStr (if is_connected s then "connected" else "disconnected"));
        ("stats", JObj (map_to_list (stats s)));
        ("config", JObj (map_to_list (config s)))].

Definition send_system_status (p : settings) (ts : string) (s : client)
  : DashboardMessage * client :=
  enqueue_new "system_status" ts (status_data s) p s.

(** ** Direct (unqueued) sends *)

(** [time.time() - self.stats.get('start_time', time.time())]: [t1] is the
    first [time.time()] reading, [t2] the one made for the default. *)
Definition heartbeat_uptime (t1 t2 : Z) (st : gmap string json) : Z :=
  match st !! "start_time" with
  | Some (JNum z) => t1 - z
  | _ => t1 - t2
  end.

Definition heartbeat_data (ts : string) (t1 t2 : Z) (s : client) : json :=
  JObj [("timestamp", JStr ts);
        ("uptime", JNum (heartbeat_uptime t1 t2 (stats s)));
        ("queue_size", JNum (Z.of_nat (length (message_queue s))))].

(** [send_heartbeat] *)
Definition send_heartbeat (p : settings) (ok : bool) (ts : string) (t1 t2 : Z)
    (s : client) : DashboardMessage * client :=
  let hd := heartbeat_data ts t1 t2 s in
  let '(m, s1) := new_envelope "heartbeat" ts hd p s in
  (m, snd (send_raw_message p ok m s1)).

(** [_heartbeat_worker], one iteration: returns the sleep length. *)
Definition heartbeat_cycle (p : settings) (ok : bool) (ts : string) (t1 t2 : Z)
    (s : client) : Z * client :=
  if is_connected s then
    let s1 := snd (send_heartbeat p ok ts t1 t2 s) in
    (30, set_stats (<["last_heartbeat" := JStr ts]> (stats s1)) s1)
  else (30, s).

Definition handshake_data (p : settings) (ts : string) : json :=
  JObj [("system_info",
          JObj [("system_id", JStr (client_system_id p));
                ("version", JStr "1.0.0");
                ("timestamp", JStr ts);
                ("capabilities", JArr [JStr "real_time_data";
                                       JStr "compressed_data";
                                       JStr "batch_updates"])]);
        ("config",
          JObj [("send_interval", JNum (send_interval p));
                ("batch_size", JNum (batch_size p));
                ("compression", JBool (compress_data p))])].

(** [_send_handshake]: the envelope keeps the default [sequence_id=0]. *)
Definition send_handshake (p : settings) (ok : bool) (ts : string) (s : client)
  : client :=
  snd (send_raw_message p ok
         (mkMessage "handshake" ts (handshake_data p ts) (client_system_id p) 0) s).

(** [_send_pong] *)
Definition send_pong (p : settings) (ok : bool) (ts : string) (s : client)
  : bool * client :=
  send_raw_message p ok
    (mkMessage "pong" ts (JObj [("status", JStr "ok")]) (client_system_id p) 0) s.

(** ** Batching: [_send_batch] and [_send_worker] *)

Definition batch_data (msgs : list DashboardMessage) : json :=
  JObj [("messages", JArr (map asdict msgs))].

Definition send_batch (p : settings) (ok : bool) (ts : string)
    (msgs : list DashboardMessage) (s : client) : DashboardMessage * client :=
  let '(m, s1) := new_envelope "batch" ts (batch_data msgs) p s in
  (m, snd (send_raw_message p ok m s1)).

(** [for _ in range(k): try: messages.append(queue.get_nowait())
    except QueueEmpty: break]: the collected messages and the rest. *)
Fixpoint collect (k : nat) (q : list DashboardMessage)
  : list DashboardMessage * list DashboardMessage :=
  match k with
  | O => ([], q)
  | S k' =>
      match q with
      | [] => ([], [])
      | m :: q' => let '(ms, r) := collect k' q' in (m :: ms, r)
      end
  end.

(** One iteration of [_send_worker]; returns the sleep length.
    [range(batch_size)] is empty for [batch_size <= 0]. *)
Definition send_worker_cycle (p : settings) (ok : bool) (ts : string) (s : client)
  : Z * client :=
  if is_connected s && negb (bool_decide (message_queue s = [])) then
    let '(ms, rest) := collect (Z.to_nat (batch_size p)) (message_queue s) in
    let s1 := set_queue rest s in
    (send_interval p,
     match ms with
     | [] => s1
     | [m] => snd (send_raw_message p ok m s1)
     | _ => snd (send_batch p ok ts ms s1)
     end)
  else (send_interval p, s).

(** ** Connection management *)

(** [_handle_reconnect]: the backoff delay slept and the new state. *)
Definition handle_reconnect (p : settings) (s : client) : Z * client :=
  if reconnect_attempts s <? max_reconnect_attempts p then
    let a := reconnect_attempts s + 1 in
    (Z.min (reconnect_delay p * 2 ^ (a - 1)) (max_reconnect_delay p),
     set_attempts a s)
  else (max_reconnect_delay p, set_attempts 0 s).

(** [_connect] when [websockets.connect] returns handle [h], followed by the
    [if self.is_connected: self.reconnect_attempts = 0] of
    [_connection_manager]. *)
Definition connect_ok (p : settings) (ok : bool) (h : nat) (ts : string)
    (s : client) : client :=
  let s1 := set_connected true (set_websocket (Some h) s) in
  let s2 := set_stats (incr_stat "reconnections" 1 (stats s1)) s1 in
  let s3 := send_handshake p ok ts s2 in
  if is_connected s3 then set_attempts 0 s3 else s3.

(** A failed [_connect] caught in [_connection_manager]. *)
Definition connect_fail (p : settings) (s : client) : client :=
  let s1 := set_connected false s in
  if is_running s1 then snd (handle_reconnect p s1) else s1.

(** [_listen_for_messages] ending by an exception: [ConnectionClosed]
    (an abnormal close) or any other error.  A clean close ends the
    [async for] normally and leaves [is_connected] as it was; that path
    changes no state, so it needs no event of its own. *)
Definition connection_lost (s : client) : client := set_connected false s.

(** ** Inbound dispatch *)

(** [_handle_config_update]: [for key, value in config.items():
    if key in self.config: self.config[key] = value]. *)
Definition handle_config_update (cfg : gmap string json)
    (upd : list (string * json)) : gmap string json :=
  fold_left (fun acc kv =>
               match acc !! kv.1 with
               | Some _ => <[kv.1 := kv.2]> acc
               | None => acc
               end) upd cfg.

Inductive inbound_kind : Type := InPing | InConfigUpdate | InCommand | InOther.

(** [data.get('type', 'unknown')] compared with the handled tags. *)
Definition classify_incoming (frame : json) : inbound_kind :=
  match json_get "type" frame with
  | Some (JStr "ping") => InPing
  | Some (JStr "config_update") => InConfigUpdate
  | Some (JStr "command") => InCommand
  | _ => InOther
  end.

(** [_handle_incoming_message] applied to [json.loads(frame)]; an exception
    raised by a handler is caught by [_listen_for_messages] and leaves the
    state as it was. *)
Definition handle_incoming (p : settings) (ok : bool) (ts : string)
    (frame : json) (s : client) : client :=
  match classify_incoming frame with
  | InPing => snd (send_pong p ok ts s)
  | InConfigUpdate =>
      match json_get "config" frame with
      | None => s
      | Some (JObj l) => set_config (handle_config_update (config s) l) s
      | Some _ => s
      end
  | InCommand =>
      match json_get "command" frame with
      | None => s
      | Some c =>
          match json_get "type" c with
          | Some (JStr "get_status") => snd (send_system_status p ts s)
          | _ => s
          end
      end
  | InOther => s
  end.


(** ** Traces of client operations

    The calls that build envelopes, the direct sends and the events of the
    connection lifecycle ([_connect] succeeding or failing, the read loop
    ending), run in any order.  The inbound [get_status] command is
    [send_system_status]. *)
Inductive event : Type :=
| EvPortfolio (ts : string) (d : json)
| EvTradeSignal (ts : string) (d : json)
| EvRiskAlert (ts : string) (d : json)
| EvSystemStatus (ts : string)
| EvBatch (ok : bool) (ts : string) (msgs : list DashboardMessage)
| EvHeartbeat (ok : bool) (ts : string) (t1 t2 : Z)
| EvPing (ok : bool) (ts : string)                (* inbound ping *)
| EvConfigUpdate (upd : list (string * json))    (* inbound config_update *)
| EvConnectOk (ok : bool) (h : nat) (ts : string)
| EvConnectFail
| EvConnectionLost.

(** The new state, and the envelope built from a freshly drawn sequence id
    (tagged [true] for a heartbeat) if the event built one. *)
Definition step (p : settings) (e : event) (s : client)
  : client * option (bool * DashboardMessage) :=
  match e with
  | EvPortfolio ts d =>
      let '(m, s') := send_portfolio_data p ts d s in (s', Some (false, m))
  | EvTradeSignal ts d =>
      let '(m, s') := send_trade_signal p ts d s in (s', Some (false, m))
  | EvRiskAlert ts d =>
      let '(m, s') := send_risk_alert p ts d s in (s', Some (false, m))
  | EvSystemStatus ts =>
      let '(m, s') := send_system_status p ts s in (s', Some (false, m))
  | EvBatch ok ts msgs =>
      let '(m, s') := send_batch p ok ts msgs s in (s', Some (false, m))
  | EvHeartbeat ok ts t1 t2 =>
      let '(m, s') := send_heartbeat p ok ts t1 t2 s in (s', Some (true, m))
  | EvPing ok ts => (snd (send_pong p ok ts s), None)
  | EvConfigUpdate upd => (set_config (handle_config_update (config s) upd) s, None)
  | EvConnectOk ok h ts => (connect_ok p ok h ts s, None)
  | EvConnectFail => (connect_fail p s, None)
  | EvConnectionLost => (connection_lost s, None)
  end.

Fixpoint run (p : settings) (es : list event) (s : client)
  : client * list (bool * DashboardMessage) :=
  match es with
  | [] => (s, [])
  | e :: es' =>
      let '(s1, o) := step p e s in
      let '(s2, ms) := run p es' s1 in
      (s2, match o with Some x => x :: ms | None => ms end)
  end.

(** The sequence ids of the queued/batched (non-heartbeat) envelopes. *)
Definition queued_ids (ms : list (bool * DashboardMessage)) : list Z :=
  map (fun bm => sequence_id bm.2) (filter (fun bm => negb bm.1) ms).

End Codec.

(** ** The four loops and [stop] *)

(** A background task created by [start]. *)
Inductive task_state : Type := TaskRunning | TaskCancelling | TaskDone.

(** Where the connection-manager task ([_connection_manager], which also
    runs the read loop [_listen_for_messages]) is suspended. *)
Inductive manager_phase : Type :=
| MgrConnecting      (* awaiting websockets.connect inside _connect *)
| MgrListening       (* in _listen_for_messages *)
| MgrBackoff         (* sleeping in _handle_reconnect or the 1 s sleep *)
| MgrExited.

(** [start] stores the send and heartbeat tasks in [self.send_task] and
    [self.heartbeat_task]; the connection-manager task is held only in the
    local [connection_task]. [closed] lists the handles [stop] closed. *)
Record runtime : Type := mkRuntime {
  rt_client : client;
  send_task : option task_state;
  heartbeat_task : option task_state;
  manager : manager_phase;
  closed : list nat
}.

(** [Task.cancel()]: a finished task is left as it is. *)
Definition cancel (t : task_state) : task_state :=
  match t with TaskRunning => TaskCancelling | t' => t' end.

(** [stop] *)
Definition stop (r : runtime) : runtime :=
  let c1 := set_running false (rt_client r) in
  let st := option_map cancel (send_task r) in
  let ht := option_map cancel (heartbeat_task r) in
  match websocket c1 with
  | Some h =>
      mkRuntime (set_connected false (set_websocket None c1)) st ht (manager r)
        (closed r ++ [h])
  | None => mkRuntime c1 st ht (manager r) (closed r)
  end.

(** The connection-manager task resuming when [websockets.connect] returns
    handle [h]: the rest of [_connect] and of the manager's iteration. *)
Definition manager_connect_returns (json_dumps : json -> string)
    (gzip_b64 : string -> string) (p : settings) (ok : bool) (h : nat)
    (ts : string) (r : runtime) : runtime :=
  match manager r with
  | MgrConnecting =>
      mkRuntime (connect_ok json_dumps gzip_b64 p ok h ts (rt_client r))
        (send_task r) (heartbeat_task r) MgrListening (closed r)
  | _ => r
  end.

(** Stand-ins for the codec library functions, used to run the model on
    concrete inputs. *)
Definition demo_dumps (_ : json) : string := "{}".
Definition demo_gzip_b64 (t : string) : string := t.

(** The defaults of [__init__] ([config.get(..., default)]). *)
Definition default_settings : settings :=
  mkSettings 10 5 300 "nexus_ai_local" true 10 2.

(** A freshly constructed, running, not yet connected client. *)
Definition fresh_client : client :=
  mkClient ∅ None false true 0 0 [] initial_stats [].

(** [n] consecutive ids starting at [a]. *)
Fixpoint consecutive (a : Z) (n : nat) : list Z :=
  match n with
  | O => []
  | S n' => a :: consecutive (a + 1) n'
  end.

(** The backoff delays of [n] consecutive [_handle_reconnect] calls. *)
Fixpoint backoff_schedule (p : settings) (n : nat) (s : client) : list Z :=
  match n with
  | O => []
  | S n' => let '(d, s') := handle_reconnect p s in d :: backoff_schedule p n' s'
  end.

(** ** Frame lemmas: what each operation leaves untouched *)

Section Frame.

Variable json_dumps : json -> string.
Variable gzip_b64 : string -> string.
Variable p : settings.

Lemma send_raw_counter ok m s :
  sequence_counter (snd (send_raw_message json_dumps gzip_b64 p ok m s))
  = sequence_counter s.
Proof.
  unfold send_raw_message. destruct (negb _ || bool_decide _); [done|].
  by destruct ok.
Qed.

Lemma send_raw_queue ok m s :
  message_queue (snd (send_raw_message json_dumps gzip_b64 p ok m s))
  = message_queue s.
Proof.
  unfold send_raw_message. destruct (negb _ || bool_decide _); [done|].
  by destruct ok.
Qed.

Lemma connect_ok_counter ok h ts s :
  sequence_counter (connect_ok json_dumps gzip_b64 p ok h ts s)
  = sequence_counter s.
Proof.
  unfold connect_ok, send_handshake.
  match goal with |- context [if ?b then _ else _] => destruct b end;
  simpl; rewrite send_raw_counter; reflexivity.
Qed.

Lemma connect_fail_counter s :
  sequence_counter (connect_fail p s) = sequence_counter s.
Proof.
  unfold connect_fail, handle_reconnect. simpl.
  destruct (is_running s); [|done]. simpl.
  by destruct (reconnect_attempts s <? max_reconnect_attempts p).
Qed.

(** Each event either draws exactly the next id for the envelope it builds,
    or leaves the counter alone. *)
Lemma step_counter e s :
  match step json_dumps gzip_b64 p e s with
  | (s', None) => sequence_counter s' = sequence_counter s
  | (s', Some (_, m)) =>
      sequence_id m = sequence_counter s + 1 /\
      sequence_counter s' = sequence_counter s + 1
  end.
Proof.
  destruct e; simpl; try (split; reflexivity).
  - split; [reflexivity|]. apply send_raw_counter.
  - split; [reflexivity|]. apply send_raw_counter.
  - apply send_raw_counter.
  - apply connect_ok_counter.
  - apply connect_fail_counter.
Qed.

Lemma run_counter es s :
  let '(s', ms) := run json_dumps gzip_b64 p es s in
  map (fun bm => sequence_id bm.2) ms = consecutive (sequence_counter s + 1) (length ms)
  /\ sequence_counter s' = sequence_counter s + Z.of_nat (length ms).
Proof.
  revert s. induction es as [|e es IH]; intros s; simpl; [split; [reflexivity|lia]|].
  pose proof (step_counter e s) as Hs.
  destruct (step json_dumps gzip_b64 p e s) as [s1 [[b m]|]].
  - destruct Hs as [Hm Hc]. specialize (IH s1).
    destruct (run json_dumps gzip_b64 p es s1) as [s2 ms].
    destruct IH as [IHm IHc]. simpl. rewrite Hm, IHm, Hc.
    split; [reflexivity|]. rewrite IHc, Hc. lia.
  - specialize (IH s1). destruct (run json_dumps gzip_b64 p es s1) as [s2 ms].
    rewrite Hs in IH. exact IH.
Qed.

End Frame.

Lemma consecutive_queued_sorted (ms : list (bool * DashboardMessage)) a :
  map (fun bm => sequence_id bm.2) ms = consecutive a (length ms) ->
  StronglySorted Z.lt (queued_ids ms) /\ Forall (fun z => a <= z) (queued_ids ms).
Proof.
  revert a. induction ms as [|[b m] ms IH]; intros a H; simpl in *.
  - split; constructor.
  - injection H as Hm Hr. destruct (IH (a + 1) Hr) as [Hs Hf].
    unfold queued_ids in *. destruct b; simpl.
    + split; [exact Hs|]. eapply Forall_impl; [exact Hf|]. simpl; lia.
    + rewrite Hm. split.
      * constructor; [exact Hs|]. eapply Forall_impl; [exact Hf|]. simpl; lia.
      * constructor; [lia|]. eapply Forall_impl; [exact Hf|]. simpl; lia.
Qed.

(** * Claims *)

(** ** Sequence ids *)

(** C1 (amended): over any trace of publisher calls ([send_portfolio_data],
    [send_trade_signal], [send_risk_alert], [send_system_status]),
    [_send_batch], heartbeats, inbound pings and config updates and
    connection-lifecycle events (connect, failed connect with backoff,
    connection loss), every envelope that draws an id gets exactly the next
    counter value; the ids of the queued/batched envelopes are therefore
    strictly increasing and never repeat, and the counter is never reset,
    so numbering continues across reconnects.  Consecutive queued/batched
    ids differ by one only when no heartbeat drew an id in between. *)
Theorem sequence_ids_strictly_increase (json_dumps : json -> string)
    (gzip_b64 : string -> string) (p : settings) (es : list event) (s : client) :
  let '(s', ms) := run json_dumps gzip_b64 p es s in
  map (fun bm => sequence_id bm.2) ms = consecutive (sequence_counter s + 1) (length ms)
  /\ StronglySorted Z.lt (queued_ids ms)
  /\ sequence_counter s' = sequence_counter s + Z.of_nat (length ms).
Proof.
  pose proof (run_counter json_dumps gzip_b64 p es s) as H.
  destruct (run json_dumps gzip_b64 p es s) as [s' ms].
  destruct H as [Hm Hc]. split; [exact Hm|]. split; [|exact Hc].
  exact (proj1 (consecutive_queued_sorted ms _ Hm)).
Qed.

(** C1 counterexample: after connecting, a portfolio update, a heartbeat
    (the heartbeat worker's call) and another portfolio update: the two
    queued envelopes carry ids 1 and 3, not consecutive ids. *)
Lemma heartbeat_gap_in_queued_ids :
  queued_ids (run demo_dumps demo_gzip_b64 default_settings
                [EvConnectOk true 7 "t"; EvPortfolio "t" JNull;
                 EvHeartbeat true "t" 0 0; EvPortfolio "t" JNull]
                fresh_client).2 = [1; 3]
  /\ [1; 3] <> consecutive 1 2.
Proof. split; [reflexivity | discriminate]. Qed.

(** C2 (amended): [_send_handshake] and the pong reply send an envelope
    that keeps the default [sequence_id] 0 and leave the sequence counter
    unchanged, while [send_heartbeat] draws the next id from the same
    counter and puts it on the heartbeat envelope. *)
Theorem handshake_bypasses_heartbeat_draws (json_dumps : json -> string)
    (gzip_b64 : string -> string) (p : settings) (ok : bool) (ts : string)
    (t1 t2 : Z) (s : client) :
  (exists m, message_type m = "handshake" /\ sequence_id m = 0
             /\ send_handshake json_dumps gzip_b64 p ok ts s
                = snd (send_raw_message json_dumps gzip_b64 p ok m s))
  /\ (exists m, message_type m = "pong" /\ sequence_id m = 0
               /\ send_pong json_dumps gzip_b64 p ok ts s
                  = send_raw_message json_dumps gzip_b64 p ok m s)
  /\ sequence_counter (send_handshake json_dumps gzip_b64 p ok ts s) = sequence_counter s
  /\ sequence_counter (snd (send_pong json_dumps gzip_b64 p ok ts s)) = sequence_counter s
  /\ (let '(m, s') := send_heartbeat json_dumps gzip_b64 p ok ts t1 t2 s in
      sequence_id m = sequence_counter s + 1
      /\ sequence_counter s' = sequence_counter s + 1).
Proof.
  split.
  { exists (mkMessage "handshake" ts (handshake_data p ts) (client_system_id p) 0).
    split; [reflexivity|]. split; reflexivity. }
  split.
  { exists (mkMessage "pong" ts (JObj [("status", JStr "ok")]) (client_system_id p) 0).
    split; [reflexivity|]. split; reflexivity. }
  split; [apply send_raw_counter|]. split; [apply send_raw_counter|].
  simpl. split; [reflexivity|]. apply send_raw_counter.
Qed.

(** C2 counterexample: one heartbeat moves the shared counter from 0 to 1. *)
Lemma heartbeat_consumes_sequence_id :
  sequence_counter (snd (send_heartbeat demo_dumps demo_gzip_b64 default_settings
                           true "t" 0 0 fresh_client)) = 1
  /\ sequence_counter fresh_client = 0.
Proof. split; reflexivity. Qed.

(** ** Reconnect backoff *)

Lemma backoff_capped (m : Z) (sid : string) (c : bool) (b i : Z) (k : nat)
    (s : client) :
  fst (handle_reconnect (mkSettings m 5 300 sid c b i)
         (set_attempts (6 + Z.of_nat k) s)) = 300.
Proof.
  unfold handle_reconnect; simpl.
  destruct (6 + Z.of_nat k <? m); simpl; [|reflexivity].
  replace (6 + Z.of_nat k + 1 - 1) with (6 + Z.of_nat k) by lia.
  assert (2 ^ 6 <= 2 ^ (6 + Z.of_nat k)) by (apply Z.pow_le_mono_r; lia).
  apply Z.min_r. simpl in *. lia.
Qed.

(** C3: below the budget, [_handle_reconnect] increments the attempt
    counter first and waits [min(reconnect_delay * 2^(attempt-1),
    max_reconnect_delay)]; once the budget is exhausted it waits
    [max_reconnect_delay] and resets the counter to 0.  A failed connect
    never clears [is_running], so the manager loop keeps retrying.  With
    base 5 and cap 300 attempts 7 and later wait 300 for any budget, and
    with the default budget of 10 the delays are 5, 10, 20, 40, 80, 160,
    then 300 until the budget runs out, after which numbering restarts. *)
Theorem reconnect_backoff (p : settings) (s : client) :
  handle_reconnect p s =
    (if reconnect_attempts s <? max_reconnect_attempts p
     then (Z.min (reconnect_delay p * 2 ^ (reconnect_attempts s + 1 - 1))
                 (max_reconnect_delay p),
           set_attempts (reconnect_attempts s + 1) s)
     else (max_reconnect_delay p, set_attempts 0 s))
  /\ is_running (connect_fail p s) = is_running s
  /\ (forall (m : Z) (sid : string) (c : bool) (b i : Z) (k : nat) (s0 : client),
        fst (handle_reconnect (mkSettings m 5 300 sid c b i)
               (set_attempts (6 + Z.of_nat k) s0)) = 300)
  /\ backoff_schedule default_settings 12 (set_attempts 0 s)
     = [5; 10; 20; 40; 80; 160; 300; 300; 300; 300; 300; 5].
Proof.
  split; [reflexivity|]. split.
  - unfold connect_fail; simpl. destruct (is_running s) eqn:E; simpl; [|exact E].
    unfold handle_reconnect; simpl.
    by destruct (reconnect_attempts s <? max_reconnect_attempts p).
  - split; [exact backoff_capped | reflexivity].
Qed.

(** ** Send worker *)

Lemma collect_firstn_skipn (k : nat) (q : list DashboardMessage) :
  collect k q = (firstn k q, skipn k q).
Proof.
  revert q. induction k as [|k IH]; intros [|m q]; simpl; try reflexivity.
  rewrite IH. reflexivity.
Qed.

(** C4 (amended): in a send-worker cycle with the client connected and the
    queue non-empty, the first [min(batch_size, queue length)] envelopes
    (none when [batch_size <= 0]) are dequeued in FIFO order and the rest
    stay queued; no envelope is sent when none was dequeued, exactly one is
    sent standalone, and two or more are wrapped, in order, in one [batch]
    envelope carrying the next sequence id. *)
Theorem send_worker_batches (json_dumps : json -> string)
    (gzip_b64 : string -> string) (p : settings) (ok : bool) (ts : string)
    (s : client) (Hc : is_connected s = true) (Hq : message_queue s <> []) :
  let k := Z.to_nat (batch_size p) in
  let q := message_queue s in
  let ms := firstn k q in
  let s1 := set_queue (skipn k q) s in
  (ms ++ skipn k q)%list = q
  /\ length ms = Nat.min k (length q)
  /\ message_queue (snd (send_worker_cycle json_dumps gzip_b64 p ok ts s)) = skipn k q
  /\ snd (send_worker_cycle json_dumps gzip_b64 p ok ts s) =
     match ms with
     | [] => s1
     | [m] => snd (send_raw_message json_dumps gzip_b64 p ok m s1)
     | _ =>
         snd (send_raw_message json_dumps gzip_b64 p ok
                (mkMessage "batch" ts (batch_data ms) (client_system_id p)
                   (sequence_counter s + 1))
                (set_counter (sequence_counter s + 1) s1))
     end.
Proof.
  intros k q ms s1.
  assert (Hcyc : snd (send_worker_cycle json_dumps gzip_b64 p ok ts s) =
     match ms with
     | [] => s1
     | [m] => snd (send_raw_message json_dumps gzip_b64 p ok m s1)
     | _ =>
         snd (send_raw_message json_dumps gzip_b64 p ok
                (mkMessage "batch" ts (batch_data ms) (client_system_id p)
                   (sequence_counter s + 1))
                (set_counter (sequence_counter s + 1) s1))
     end).
  { unfold send_worker_cycle. rewrite Hc, bool_decide_eq_false_2 by exact Hq.
    simpl. rewrite collect_firstn_skipn. subst ms s1 k q.
    destruct (firstn _ _) as [|m [|m' ms']]; reflexivity. }
  split; [apply firstn_skipn|]. split; [apply length_firstn|].
  split; [|exact Hcyc].
  rewrite Hcyc. destruct ms as [|m [|m' ms']]; rewrite ?send_raw_queue; reflexivity.
Qed.

(** C4 counterexample: with [batch_size = 0] and one envelope queued on a
    connected client, the cycle dequeues nothing and sends nothing: no
    [batch] envelope is built, the queue and the wire stay as they were. *)
Definition zero_batch_settings : settings :=
  mkSettings 10 5 300 "nexus_ai_local" true 0 2.

Definition one_queued_client : client :=
  snd (send_portfolio_data zero_batch_settings "t" JNull
         (connect_ok demo_dumps demo_gzip_b64 zero_batch_settings true 7 "t"
            fresh_client)).

Lemma zero_batch_size_sends_nothing :
  let s2 := snd (send_worker_cycle demo_dumps demo_gzip_b64 zero_batch_settings
                   true "t" one_queued_client) in
  is_connected one_queued_client = true
  /\ length (message_queue one_queued_client) = 1%nat
  /\ message_queue s2 = message_queue one_queued_client
  /\ wire s2 = wire one_queued_client
  /\ sequence_counter s2 = sequence_counter one_queued_client.
Proof. vm_compute. repeat split. Qed.

(** 25 envelopes queued on a connected client with the default settings. *)
Definition client_25_queued : client :=
  set_queue (map (fun i => mkMessage "portfolio_update" "t" JNull "nexus_ai_local"
                              (Z.of_nat i)) (seq 1 25))
    (connect_ok demo_dumps demo_gzip_b64 default_settings true 7 "t" fresh_client).

Lemma send_worker_batches_witness :
  is_connected client_25_queued = true
  /\ message_queue client_25_queued <> []
  /\ length (firstn (Z.to_nat (batch_size default_settings))
               (message_queue client_25_queued)) = 10%nat
  /\ length (message_queue (snd (send_worker_cycle demo_dumps demo_gzip_b64
                                   default_settings true "t" client_25_queued)))
     = 15%nat.
Proof.
  assert (Hc : is_connected client_25_queued = true) by reflexivity.
  assert (Hq : message_queue client_25_queued <> []) by discriminate.
  destruct (send_worker_batches demo_dumps demo_gzip_b64 default_settings true "t"
              client_25_queued Hc Hq) as (_ & Hlen & Hrest & _).
  split; [exact Hc|]. split; [exact Hq|]. split.
  - rewrite Hlen. reflexivity.
  - rewrite Hrest. reflexivity.
Defined.

(** ** Compressed frames and the inbound path *)

(** C5 (amended): with compression on, the frame is the marker object
    [{compressed: true, data: b64(gzip(json(envelope)))}].  The client's
    own inbound path ([json.loads] followed by [_handle_incoming_message])
    does not look for the marker: the frame it parses is the marker object,
    which is not the envelope, and it is dispatched as an unknown type and
    ignored. *)
Theorem compressed_frame_is_marker_object (json_dumps : json -> string)
    (gzip_b64 : string -> string) (m : DashboardMessage) :
  encode json_dumps gzip_b64 true m =
    JObj [("compressed", JBool true);
          ("data", JStr (gzip_b64 (json_dumps (asdict m))))]
  /\ encode json_dumps gzip_b64 true m <> asdict m
  /\ classify_incoming (encode json_dumps gzip_b64 true m) = InOther
  /\ (forall (p : settings) (ok : bool) (ts : string) (s : client),
        handle_incoming json_dumps gzip_b64 p ok ts (encode json_dumps gzip_b64 true m) s
        = s).
Proof.
  split; [reflexivity|]. split; [discriminate|]. split; reflexivity.
Qed.

(** An envelope with a nested payload and a non-ASCII string. *)
Definition unicode_envelope : DashboardMessage :=
  mkMessage "portfolio_update" "2025-01-01T00:00:00"
    (JObj [("name", JStr "café"); ("nested", JObj [("x", JNum 1)])])
    "nexus_ai_local" 1.

(** C5 counterexample: decoding the compressed frame of [unicode_envelope]
    the way the client decodes inbound frames yields the marker object, not
    the envelope, and the dispatcher treats it as an unknown message. *)
Lemma compressed_roundtrip_fails :
  encode demo_dumps demo_gzip_b64 true unicode_envelope <> asdict unicode_envelope
  /\ classify_incoming (encode demo_dumps demo_gzip_b64 true unicode_envelope) = InOther.
Proof. split; [discriminate | reflexivity]. Qed.

(** ** Send failures *)

Lemma incr_stat_eq (k : string) (d n : Z) (st : gmap string json) :
  st !! k = Some (JNum n) -> incr_stat k d st !! k = Some (JNum (n + d)).
Proof. intros H. unfold incr_stat. rewrite H. apply lookup_insert_eq. Qed.

Lemma incr_stat_ne (k k' : string) (d : Z) (st : gmap string json) :
  k' <> k -> incr_stat k d st !! k' = st !! k'.
Proof.
  intros H. unfold incr_stat. destruct (st !! k) as [[]|]; try reflexivity.
  apply lookup_insert_ne. congruence.
Qed.

(** C6: when [websocket.send] raises on a connected client,
    [_send_raw_message] returns False, adds exactly one to
    [messages_failed] and changes no other statistic, sets [is_connected]
    to false and puts nothing back on the queue; a send-worker cycle whose
    send fails leaves exactly the undequeued rest of the queue. *)
Theorem send_failure_marks_disconnected (json_dumps : json -> string)
    (gzip_b64 : string -> string) (p : settings) (m : DashboardMessage)
    (ts : string) (s : client) (n : Z)
    (Hc : is_connected s = true) (Hw : websocket s <> None)
    (Hf : stats s !! "messages_failed" = Some (JNum n)) :
  let '(r, s') := send_raw_message json_dumps gzip_b64 p false m s in
  r = false /\ is_connected s' = false
  /\ stats s' !! "messages_failed" = Some (JNum (n + 1))
  /\ (forall k, k <> "messages_failed" -> stats s' !! k = stats s !! k)
  /\ message_queue s' = message_queue s /\ wire s' = wire s
  /\ message_queue (snd (send_worker_cycle json_dumps gzip_b64 p false ts s))
     = skipn (Z.to_nat (batch_size p)) (message_queue s).
Proof.
  assert (Hworker : message_queue (snd (send_worker_cycle json_dumps gzip_b64 p false ts s))
                    = skipn (Z.to_nat (batch_size p)) (message_queue s)).
  { destruct (message_queue s) eqn:Eq.
    - unfold send_worker_cycle.
      rewrite Eq. rewrite bool_decide_eq_true_2 by reflexivity.
      rewrite andb_false_r. simpl.
      rewrite Eq, skipn_nil. reflexivity.
    - rewrite <- Eq.
      assert (Hq : message_queue s <> []) by (rewrite Eq; discriminate).
      exact (proj1 (proj2 (proj2 (send_worker_batches json_dumps gzip_b64 p false ts s
                                     Hc Hq)))). }
  unfold send_raw_message. rewrite Hc, bool_decide_eq_false_2 by exact Hw. simpl.
  repeat split; try reflexivity; simpl.
  - apply incr_stat_eq. exact Hf.
  - intros k Hk. apply incr_stat_ne. exact Hk.
  - exact Hworker.
Qed.

Lemma send_failure_marks_disconnected_witness :
  is_connected client_25_queued = true
  /\ websocket client_25_queued <> None
  /\ stats client_25_queued !! "messages_failed" = Some (JNum 0)
  /\ (let '(r, s') := send_raw_message demo_dumps demo_gzip_b64 default_settings
                        false unicode_envelope client_25_queued in
      r = false /\ is_connected s' = false
      /\ stats s' !! "messages_failed" = Some (JNum (0 + 1))
      /\ (forall k, k <> "messages_failed" -> stats s' !! k = stats client_25_queued !! k)
      /\ message_queue s' = message_queue client_25_queued
      /\ wire s' = wire client_25_queued
      /\ message_queue (snd (send_worker_cycle demo_dumps demo_gzip_b64 default_settings
                               false "t" client_25_queued))
         = skipn (Z.to_nat (batch_size default_settings)) (message_queue client_25_queued)).
Proof.
  assert (Hc : is_connected client_25_queued = true) by reflexivity.
  assert (Hw : websocket client_25_queued <> None) by discriminate.
  assert (Hf : stats client_25_queued !! "messages_failed" = Some (JNum 0)) by reflexivity.
  split; [exact Hc|]. split; [exact Hw|]. split; [exact Hf|].
  exact (send_failure_marks_disconnected demo_dumps demo_gzip_b64 default_settings
           unicode_envelope "t" client_25_queued 0 Hc Hw Hf).
Defined.

(** ** Stopping the client *)

Lemma cancel_idem (t : task_state) : cancel (cancel t) = cancel t.
Proof. by destruct t. Qed.

(** C7 (amended): [stop] sets [is_running] to false and requests
    cancellation of the send and heartbeat tasks without awaiting them; if
    a socket handle is held it closes it, drops it and sets [is_connected]
    to false (so [is_connected] is false afterwards whenever a connected
    client always holds a handle); a second [stop] changes nothing. *)
Theorem stop_effect (r : runtime) :
  let r' := stop r in
  is_running (rt_client r') = false
  /\ send_task r' = option_map cancel (send_task r)
  /\ heartbeat_task r' = option_map cancel (heartbeat_task r)
  /\ websocket (rt_client r') = None
  /\ closed r' = (closed r ++ match websocket (rt_client r) with
                              | Some h => [h] | None => [] end)%list
  /\ is_connected (rt_client r') =
       match websocket (rt_client r) with
       | Some _ => false
       | None => is_connected (rt_client r)
       end
  /\ ((is_connected (rt_client r) = true -> websocket (rt_client r) <> None) ->
      is_connected (rt_client r') = false)
  /\ stop r' = r'.
Proof.
  destruct r as [[cfg ws conn run att ctr q st w] sd hb mg cl]; simpl.
  destruct ws as [h|]; simpl.
  - repeat split; try reflexivity.
    unfold stop; simpl. f_equal.
    + destruct sd; simpl; [rewrite cancel_idem|]; reflexivity.
    + destruct hb; simpl; [rewrite cancel_idem|]; reflexivity.
  - repeat split; try reflexivity.
    + rewrite app_nil_r. reflexivity.
    + intros H. destruct conn; [|reflexivity]. exfalso. by apply H.
    + unfold stop; simpl. f_equal.
      * destruct sd; simpl; [rewrite cancel_idem|]; reflexivity.
      * destruct hb; simpl; [rewrite cancel_idem|]; reflexivity.
Qed.

(** A running client whose dashboard is unreachable: the manager sleeps in
    its backoff, the send and heartbeat loops are alive, no handle is held. *)
Definition runtime_in_backoff : runtime :=
  mkRuntime fresh_client (Some TaskRunning) (Some TaskRunning) MgrBackoff [].

(** The same client while [websockets.connect] is in flight. *)
Definition runtime_connecting : runtime :=
  mkRuntime fresh_client (Some TaskRunning) (Some TaskRunning) MgrConnecting [].

(** C7 counterexample: when [stop] returns on [runtime_in_backoff] (it
    holds no handle, so it never yields), the send and heartbeat tasks have
    only been asked to cancel and the connection-manager loop has not been
    touched.  From [runtime_connecting], the in-flight connect completing
    after [stop] sets [is_connected] back to true and writes the handshake
    through the new handle. *)
Lemma stop_leaves_loops_running :
  manager (stop runtime_in_backoff) = MgrBackoff
  /\ send_task (stop runtime_in_backoff) = Some TaskCancelling
  /\ heartbeat_task (stop runtime_in_backoff) = Some TaskCancelling
  /\ (let r' := manager_connect_returns demo_dumps demo_gzip_b64 default_settings
                  true 7 "t" (stop runtime_connecting) in
      is_running (rt_client r') = false
      /\ is_connected (rt_client r') = true
      /\ websocket (rt_client r') = Some 7%nat
      /\ wire (rt_client r') <> []).
Proof. vm_compute. repeat split; discriminate. Qed.

(** ** Configuration updates *)

Lemma obj_get_not_in (k : string) (l : list (string * json)) :
  k ∉ l.*1 -> obj_get k l = None.
Proof.
  induction l as [|[k' v] l IH]; intros Hn; simpl; [reflexivity|].
  simpl in Hn. apply not_elem_of_cons in Hn as [Hne Hn].
  destruct (String.eqb_spec k k'); [congruence|]. by apply IH.
Qed.

Lemma handle_config_update_lookup (upd : list (string * json)) :
  NoDup upd.*1 ->
  forall (cfg : gmap string json) (k : string),
  handle_config_update cfg upd !! k =
    match cfg !! k with
    | None => None
    | Some old => Some (default old (obj_get k upd))
    end.
Proof.
  induction upd as [|[k0 v0] upd IH]; intros Hnd cfg k; simpl.
  - destruct (cfg !! k); reflexivity.
  - simpl in Hnd. apply NoDup_cons in Hnd as [Hk0 Hnd].
    unfold handle_config_update in *. simpl.
    rewrite IH by exact Hnd.
    destruct (String.eqb_spec k k0) as [->|Hne].
    + rewrite (obj_get_not_in k0 upd Hk0).
      destruct (cfg !! k0) eqn:E; simpl.
      * rewrite lookup_insert_eq. reflexivity.
      * rewrite E. reflexivity.
    + destruct (cfg !! k0); simpl.
      * rewrite lookup_insert_ne by congruence. reflexivity.
      * reflexivity.
Qed.

(** The frame of a [config_update] message carrying [upd]. *)
Definition config_update_frame (upd : list (string * json)) : json :=
  JObj [("type", JStr "config_update"); ("config", JObj upd)].

(** C8: on a received [config_update] (whose [config] object, decoded by
    [json.loads], has distinct keys), every key already present in the live
    configuration is set to the incoming value, every key not present is
    ignored, and every entry not named in the update keeps its value. *)
Theorem config_update_merges_known_keys (json_dumps : json -> string)
    (gzip_b64 : string -> string) (p : settings) (ok : bool) (ts : string)
    (upd : list (string * json)) (s : client) (Hnd : NoDup upd.*1) (k : string) :
  config (handle_incoming json_dumps gzip_b64 p ok ts (config_update_frame upd) s) !! k =
    match config s !! k with
    | None => None
    | Some old => Some (default old (obj_get k upd))
    end.
Proof.
  unfold handle_incoming. simpl. apply handle_config_update_lookup. exact Hnd.
Qed.

Definition live_config : gmap string json :=
  list_to_map [("batch_size", JNum 10); ("send_interval", JNum 2)].

Lemma config_update_merges_known_keys_witness :
  NoDup ([("batch_size", JNum 5); ("unknown_key", JBool true)] : list (string * json)).*1
  /\ config (handle_incoming demo_dumps demo_gzip_b64 default_settings true "t"
               (config_update_frame [("batch_size", JNum 5); ("unknown_key", JBool true)])
               (set_config live_config fresh_client)) !! "batch_size"
     = Some (JNum 5).
Proof.
  assert (Hnd : NoDup ([("batch_size", JNum 5); ("unknown_key", JBool true)]
                       : list (string * json)).*1).
  { simpl. repeat constructor; set_solver. }
  split; [exact Hnd|].
  rewrite (config_update_merges_known_keys demo_dumps demo_gzip_b64 default_settings
             true "t" _ (set_config live_config fresh_client) Hnd "batch_size").
  reflexivity.
Defined.

(** ** Heartbeats and sends while disconnected *)

Section Heartbeat.

Variable json_dumps : json -> string.
Variable gzip_b64 : string -> string.
Variable p : settings.

Lemma send_raw_start_time ok m s :
  stats (snd (send_raw_message json_dumps gzip_b64 p ok m s)) !! "start_time"
  = stats s !! "start_time".
Proof.
  unfold send_raw_message. destruct (negb _ || bool_decide _); [done|].
  destruct ok; simpl; rewrite !incr_stat_ne by discriminate; reflexivity.
Qed.

(** No operation of the client ever creates a [start_time] statistic. *)
Lemma step_start_time e s :
  stats (step json_dumps gzip_b64 p e s).1 !! "start_time" = stats s !! "start_time".
Proof.
  destruct e; simpl; try reflexivity;
    try (unfold send_pong; rewrite send_raw_start_time; reflexivity).
  - unfold connect_ok, send_handshake.
    match goal with |- context [if ?b then _ else _] => destruct b end;
    simpl; rewrite send_raw_start_time; simpl;
    rewrite incr_stat_ne by discriminate; reflexivity.
  - unfold connect_fail; simpl. destruct (is_running s); [|reflexivity].
    unfold handle_reconnect; simpl.
    by destruct (reconnect_attempts s <? max_reconnect_attempts p).
Qed.

Lemma run_start_time es s :
  stats (run json_dumps gzip_b64 p es s).1 !! "start_time" = stats s !! "start_time".
Proof.
  revert s. induction es as [|e es IH]; intros s; simpl; [reflexivity|].
  pose proof (step_start_time e s) as He.
  destruct (step json_dumps gzip_b64 p e s) as [s1 o].
  specialize (IH s1). destruct (run json_dumps gzip_b64 p es s1) as [s2 ms].
  simpl in *. congruence.
Qed.

Lemma send_raw_disconnected ok m s :
  is_connected s = false \/ websocket s = None ->
  send_raw_message json_dumps gzip_b64 p ok m s = (false, s).
Proof.
  intros [H|H]; unfold send_raw_message; rewrite H; [reflexivity|].
  rewrite bool_decide_eq_true_2 by reflexivity. rewrite orb_true_r. reflexivity.
Qed.

End Heartbeat.

Lemma initial_stats_no_start_time : initial_stats !! "start_time" = None.
Proof. reflexivity. Qed.

(** C9 (code_bug): in every state reached from a freshly constructed
    client, [self.stats] has no [start_time] entry, so the heartbeat's
    [uptime] is [time.time() - time.time()], the difference of two
    back-to-back clock readings, not the process uptime.  The rest of the
    claim holds: the payload carries the current queue depth, the heartbeat
    is written directly (the queue is untouched) and the worker sleeps a
    fixed 30 seconds whatever [send_interval] is. *)
Theorem heartbeat_uptime_is_clock_difference (json_dumps : json -> string)
    (gzip_b64 : string -> string) (p : settings) (ok : bool) (ts : string)
    (t1 t2 : Z) (es : list event) (s0 : client) (H0 : stats s0 = initial_stats) :
  let s := (run json_dumps gzip_b64 p es s0).1 in
  let hb := send_heartbeat json_dumps gzip_b64 p ok ts t1 t2 s in
  json_get "uptime" (data hb.1) = Some (JNum (t1 - t2))
  /\ json_get "queue_size" (data hb.1) = Some (JNum (Z.of_nat (length (message_queue s))))
  /\ message_queue hb.2 = message_queue s
  /\ fst (heartbeat_cycle json_dumps gzip_b64 p ok ts t1 t2 s) = 30.
Proof.
  intros s hb.
  assert (Hst : stats s !! "start_time" = None).
  { subst s. rewrite run_start_time, H0. reflexivity. }
  split; [|split; [reflexivity|split]].
  - subst hb. simpl. unfold heartbeat_uptime. rewrite Hst. reflexivity.
  - subst hb. simpl. rewrite send_raw_queue. reflexivity.
  - unfold heartbeat_cycle. by destruct (is_connected s).
Qed.

(** The failing input: a client constructed at t = 1000 that connected and
    whose heartbeat worker fires at t = 5000 reports an uptime of 0. *)
Lemma heartbeat_uptime_is_clock_difference_witness :
  stats fresh_client = initial_stats
  /\ json_get "uptime"
       (data (send_heartbeat demo_dumps demo_gzip_b64 default_settings true "t"
                5000 5000
                (run demo_dumps demo_gzip_b64 default_settings
                   [EvConnectOk true 7 "t"] fresh_client).1).1)
     = Some (JNum 0).
Proof.
  assert (H0 : stats fresh_client = initial_stats) by reflexivity.
  split; [exact H0|].
  rewrite (proj1 (heartbeat_uptime_is_clock_difference demo_dumps demo_gzip_b64
                    default_settings true "t" 5000 5000 [EvConnectOk true 7 "t"]
                    fresh_client H0)).
  reflexivity.
Defined.

(** C10: [_send_raw_message] on a client that is not connected or holds no
    handle returns False and leaves the whole state (statistics, wire,
    connection flag) unchanged; so a pong reply is dropped silently, and a
    heartbeat changes no statistic and writes nothing. *)
Theorem send_while_disconnected_is_silent (json_dumps : json -> string)
    (gzip_b64 : string -> string) (p : settings) (ok : bool) (m : DashboardMessage)
    (ts : string) (t1 t2 : Z) (s : client)
    (H : is_connected s = false \/ websocket s = None) :
  send_raw_message json_dumps gzip_b64 p ok m s = (false, s)
  /\ send_pong json_dumps gzip_b64 p ok ts s = (false, s)
  /\ stats (send_heartbeat json_dumps gzip_b64 p ok ts t1 t2 s).2 = stats s
  /\ wire (send_heartbeat json_dumps gzip_b64 p ok ts t1 t2 s).2 = wire s.
Proof.
  split; [apply send_raw_disconnected; exact H|].
  split; [apply send_raw_disconnected; exact H|].
  simpl. rewrite send_raw_disconnected by (simpl; exact H). split; reflexivity.
Qed.

Lemma send_while_disconnected_is_silent_witness :
  (is_connected fresh_client = false \/ websocket fresh_client = None)
  /\ send_raw_message demo_dumps demo_gzip_b64 default_settings true unicode_envelope
       fresh_client = (false, fresh_client).
Proof.
  assert (H : is_connected fresh_client = false \/ websocket fresh_client = None)
    by (left; reflexivity).
  split; [exact H|].
  exact (proj1 (send_while_disconnected_is_silent demo_dumps demo_gzip_b64
                  default_settings true unicode_envelope "t" 0 0 fresh_client H)).
Defined.

(** * Further properties of the client *)

(** ** Direct sends and inbound dispatch *)

(** The envelope [_send_pong] builds. *)
Definition pong_envelope (p : settings) (ts : string) : DashboardMessage :=
  mkMessage "pong" ts (JObj [("status", JStr "ok")]) (client_system_id p) 0.

(** The envelope [_send_handshake] builds. *)
Definition handshake_envelope (p : settings) (ts : string) : DashboardMessage :=
  mkMessage "handshake" ts (handshake_data p ts) (client_system_id p) 0.

(** A [command] frame with the given command object. *)
Definition command_frame (c : json) : json :=
  JObj [("type", JStr "command"); ("command", c)].

(** The [system_status] envelope [send_system_status] queues from [s]. *)
Definition status_envelope (p : settings) (ts : string) (s : client) : DashboardMessage :=
  mkMessage "system_status" ts (status_data s) (client_system_id p)
    (sequence_counter s + 1).

Section Inbound.

Variable json_dumps : json -> string.
Variable gzip_b64 : string -> string.
Variable p : settings.

Lemma send_raw_wire_prefix ok m s :
  wire s `prefix_of` wire (snd (send_raw_message json_dumps gzip_b64 p ok m s)).
Proof.
  unfold send_raw_message. destruct (negb _ || bool_decide _); [done|].
  destruct ok; simpl; [apply prefix_app_r; done|done].
Qed.

Lemma send_raw_frame_fields ok m s :
  let s' := snd (send_raw_message json_dumps gzip_b64 p ok m s) in
  is_running s' = is_running s /\ websocket s' = websocket s
  /\ reconnect_attempts s' = reconnect_attempts s /\ config s' = config s.
Proof.
  unfold send_raw_message. destruct (negb _ || bool_decide _); [done|].
  by destruct ok.
Qed.

End Inbound.

(** X1: a send on a connected client whose [websocket.send] succeeds returns
    True, writes exactly the encoded frame (the marker object when
    compression is on, the envelope itself otherwise), adds one to
    [messages_sent] and the frame's text length to [bytes_sent], and leaves
    [messages_failed], the connection flag and the queue alone. *)
Theorem send_raw_success (json_dumps : json -> string) (gzip_b64 : string -> string)
    (p : settings) (m : DashboardMessage) (s : client) (n1 n2 : Z)
    (Hc : is_connected s = true) (Hw : websocket s <> None)
    (Hs : stats s !! "messages_sent" = Some (JNum n1))
    (Hb : stats s !! "bytes_sent" = Some (JNum n2)) :
  let frame := encode json_dumps gzip_b64 (compress_data p) m in
  let '(r, s') := send_raw_message json_dumps gzip_b64 p true m s in
  r = true
  /\ wire s' = (wire s ++ [frame])%list
  /\ stats s' !! "messages_sent" = Some (JNum (n1 + 1))
  /\ stats s' !! "bytes_sent"
     = Some (JNum (n2 + Z.of_nat (String.length (json_dumps frame))))
  /\ stats s' !! "messages_failed" = stats s !! "messages_failed"
  /\ is_connected s' = true
  /\ message_queue s' = message_queue s.
Proof.
  unfold send_raw_message. rewrite Hc, bool_decide_eq_false_2 by exact Hw. simpl.
  split; [reflexivity|]. split; [reflexivity|].
  split; [rewrite incr_stat_ne by discriminate; apply incr_stat_eq; exact Hs|].
  split; [apply incr_stat_eq; rewrite incr_stat_ne by discriminate; exact Hb|].
  split; [rewrite !incr_stat_ne by discriminate; reflexivity|].
  split; [exact Hc|reflexivity].
Qed.

Lemma send_raw_success_witness :
  is_connected client_25_queued = true
  /\ websocket client_25_queued <> None
  /\ stats client_25_queued !! "messages_sent" = Some (JNum 1)
  /\ stats client_25_queued !! "bytes_sent" = Some (JNum 2)
  /\ wire (send_raw_message demo_dumps demo_gzip_b64 default_settings true
             unicode_envelope client_25_queued).2
     = (wire client_25_queued
        ++ [encode demo_dumps demo_gzip_b64 true unicode_envelope])%list.
Proof.
  assert (Hc : is_connected client_25_queued = true) by reflexivity.
  assert (Hw : websocket client_25_queued <> None) by discriminate.
  assert (Hs : stats client_25_queued !! "messages_sent" = Some (JNum 1)) by reflexivity.
  assert (Hb : stats client_25_queued !! "bytes_sent" = Some (JNum 2)) by reflexivity.
  do 4 (split; [assumption|]).
  pose proof (send_raw_success demo_dumps demo_gzip_b64 default_settings
                unicode_envelope client_25_queued 1 2 Hc Hw Hs Hb) as H.
  revert H.
  destruct (send_raw_message demo_dumps demo_gzip_b64 default_settings true
              unicode_envelope client_25_queued) as [r s'].
  intros H. exact (proj1 (proj2 H)).
Defined.

(** X2: a [ping] frame received on a connected client whose send succeeds
    is answered by writing exactly one [pong] frame directly: the queue and
    the sequence counter are untouched. *)
Theorem ping_answered_directly (json_dumps : json -> string)
    (gzip_b64 : string -> string) (p : settings) (ts : string) (frame : json)
    (s : client) (Hp : classify_incoming frame = InPing)
    (Hc : is_connected s = true) (Hw : websocket s <> None) :
  let s' := handle_incoming json_dumps gzip_b64 p true ts frame s in
  wire s' = (wire s ++ [encode json_dumps gzip_b64 (compress_data p) (pong_envelope p ts)])%list
  /\ message_queue s' = message_queue s
  /\ sequence_counter s' = sequence_counter s
  /\ is_connected s' = true.
Proof.
  unfold handle_incoming. rewrite Hp. unfold send_pong, send_raw_message.
  rewrite Hc, bool_decide_eq_false_2 by exact Hw. simpl.
  split; [reflexivity|]. split; [reflexivity|]. split; [reflexivity|exact Hc].
Qed.

Lemma ping_answered_directly_witness :
  classify_incoming (JObj [("type", JStr "ping")]) = InPing
  /\ is_connected client_25_queued = true
  /\ websocket client_25_queued <> None
  /\ length (wire (handle_incoming demo_dumps demo_gzip_b64 default_settings true "t"
                     (JObj [("type", JStr "ping")]) client_25_queued))
     = S (length (wire client_25_queued)).
Proof.
  assert (Hp : classify_incoming (JObj [("type", JStr "ping")]) = InPing) by reflexivity.
  assert (Hc : is_connected client_25_queued = true) by reflexivity.
  assert (Hw : websocket client_25_queued <> None) by discriminate.
  do 3 (split; [assumption|]).
  rewrite (proj1 (ping_answered_directly demo_dumps demo_gzip_b64 default_settings "t"
                    _ client_25_queued Hp Hc Hw)).
  rewrite length_app. simpl. lia.
Defined.

(** X3: a [get_status] command queues exactly one envelope behind the
    pending ones, of type [system_status], with the client's system id and
    the next sequence id, and writes nothing directly; a [restart] command
    changes no state. *)
Theorem status_and_restart_commands (json_dumps : json -> string)
    (gzip_b64 : string -> string) (p : settings) (ok : bool) (ts : string)
    (s : client) :
  let s' := handle_incoming json_dumps gzip_b64 p ok ts
              (command_frame (JObj [("type", JStr "get_status")])) s in
  (exists m, message_queue s' = (message_queue s ++ [m])%list
             /\ message_type m = "system_status"
             /\ system_id m = client_system_id p
             /\ sequence_id m = sequence_counter s + 1)
  /\ sequence_counter s' = sequence_counter s + 1
  /\ wire s' = wire s
  /\ is_connected s' = is_connected s
  /\ handle_incoming json_dumps gzip_b64 p ok ts
       (command_frame (JObj [("type", JStr "restart")])) s = s.
Proof.
  split; [eexists; repeat split; reflexivity|]. repeat split; reflexivity.
Qed.

(** X4: whatever frame arrives, the inbound dispatcher never changes the
    running flag, the held handle, the reconnect counter, never retracts a
    written frame and never removes a queued envelope: the queue either
    stays as it was or gains the one [system_status] envelope of a
    [get_status] command. *)
Theorem inbound_frame_effects (json_dumps : json -> string)
    (gzip_b64 : string -> string) (p : settings) (ok : bool) (ts : string)
    (frame : json) (s : client) :
  let s' := handle_incoming json_dumps gzip_b64 p ok ts frame s in
  is_running s' = is_running s
  /\ websocket s' = websocket s
  /\ reconnect_attempts s' = reconnect_attempts s
  /\ wire s `prefix_of` wire s'
  /\ (message_queue s' = message_queue s
      \/ message_queue s' = (message_queue s ++ [status_envelope p ts s])%list).
Proof.
  unfold handle_incoming.
  destruct (classify_incoming frame).
  - destruct (send_raw_frame_fields json_dumps gzip_b64 p ok (pong_envelope p ts) s)
      as (H1 & H2 & H3 & _).
    unfold send_pong. fold (pong_envelope p ts).
    repeat split; try assumption.
    + apply send_raw_wire_prefix.
    + left. apply send_raw_queue.
  - destruct (json_get "config" frame) as [[]|]; simpl;
      repeat split; try reflexivity; left; reflexivity.
  - destruct (json_get "command" frame) as [c|]; simpl;
      [|repeat split; try reflexivity; left; reflexivity].
    destruct (json_get "type" c) as [[]|]; simpl;
      try (repeat split; try reflexivity; left; reflexivity).
    destruct (String.eqb_spec s0 "get_status") as [->|Hne].
    + simpl. repeat split; try reflexivity. right. reflexivity.
    + repeat (case_match; try congruence);
        repeat split; try reflexivity; left; reflexivity.
  - repeat split; try reflexivity. left. reflexivity.
Qed.

(** ** Connection lifecycle and backoff *)

(** [_handle_reconnect] applied [n] times in a row (the [_connection_manager]
    loop failing [n] times while running). *)
Fixpoint reconnect_n (p : settings) (n : nat) (s : client) : client :=
  match n with
  | O => s
  | S n' => reconnect_n p n' (snd (handle_reconnect p s))
  end.

Lemma backoff_schedule_app p a b s :
  backoff_schedule p (a + b) s
  = (backoff_schedule p a s ++ backoff_schedule p b (reconnect_n p a s))%list.
Proof.
  revert s. induction a as [|a IH]; intros s; [reflexivity|].
  cbn [backoff_schedule reconnect_n Nat.add].
  destruct (handle_reconnect p s) as [d s']. simpl.
  rewrite IH. reflexivity.
Qed.

Lemma backoff_schedule_attempts p n s1 s2 :
  reconnect_attempts s1 = reconnect_attempts s2 ->
  backoff_schedule p n s1 = backoff_schedule p n s2.
Proof.
  revert s1 s2. induction n as [|n IH]; intros s1 s2 H; simpl; [reflexivity|].
  unfold handle_reconnect. rewrite H.
  destruct (reconnect_attempts s2 <? max_reconnect_attempts p);
    f_equal; apply IH; reflexivity.
Qed.

Lemma reconnect_n_add p a b s :
  reconnect_n p (a + b) s = reconnect_n p b (reconnect_n p a s).
Proof.
  revert s. induction a as [|a IH]; intros s; simpl; [reflexivity|]. apply IH.
Qed.

Lemma reconnect_n_counts p (m j k : nat) s :
  max_reconnect_attempts p = Z.of_nat m ->
  reconnect_attempts s = Z.of_nat j -> (j + k <= m)%nat ->
  reconnect_attempts (reconnect_n p k s) = Z.of_nat (j + k).
Proof.
  revert s j. induction k as [|k IH]; intros s j Hm Hj Hle; simpl.
  - rewrite Hj. f_equal. lia.
  - unfold handle_reconnect. rewrite Hj, Hm.
    rewrite (proj2 (Z.ltb_lt _ _)) by lia. simpl.
    replace (j + S k)%nat with (S j + k)%nat by lia.
    apply IH; [exact Hm| simpl; lia | lia].
Qed.

(** A number kept in the stats dict is at least [n]. *)
Definition stat_at_least (k : string) (n : Z) (st : gmap string json) : Prop :=
  exists n', st !! k = Some (JNum n') /\ n <= n'.

Lemma incr_stat_at_least k0 d k n st :
  0 <= d -> stat_at_least k n st -> stat_at_least k n (incr_stat k0 d st).
Proof.
  intros Hd [n' [Hk Hn]].
  destruct (String.eq_dec k k0) as [->|Hne].
  - exists (n' + d). split; [apply incr_stat_eq; exact Hk|lia].
  - exists n'. split; [rewrite incr_stat_ne by exact Hne; exact Hk|exact Hn].
Qed.

Section Traces.

Variable json_dumps : json -> string.
Variable gzip_b64 : string -> string.
Variable p : settings.

Lemma send_raw_stat_at_least ok m s k n :
  stat_at_least k n (stats s) ->
  stat_at_least k n (stats (snd (send_raw_message json_dumps gzip_b64 p ok m s))).
Proof.
  intros H. unfold send_raw_message. destruct (negb _ || bool_decide _); [exact H|].
  destruct ok; simpl; repeat apply incr_stat_at_least; try lia; exact H.
Qed.

Lemma step_stat_at_least e s k n :
  stat_at_least k n (stats s) ->
  stat_at_least k n (stats (step json_dumps gzip_b64 p e s).1).
Proof.
  intros H. destruct e; simpl; try exact H;
    try (unfold send_pong; apply send_raw_stat_at_least; exact H);
    try (apply send_raw_stat_at_least; exact H).
  - unfold connect_ok, send_handshake. cbv zeta.
    match goal with |- context [if ?b then _ else _] => destruct b end;
      simpl; apply send_raw_stat_at_least; simpl;
      (apply incr_stat_at_least; [lia|exact H]).
  - unfold connect_fail, handle_reconnect; simpl. destruct (is_running s); [|exact H].
    by destruct (reconnect_attempts s <? max_reconnect_attempts p).
Qed.

(** Whether an emitted envelope was queued by a publisher (not a heartbeat,
    not a batch wrapper). *)
Definition enqueued (bm : bool * DashboardMessage) : bool :=
  negb bm.1 && negb (String.eqb (message_type bm.2) "batch").

Lemma step_queue e s :
  match step json_dumps gzip_b64 p e s with
  | (s', None) => message_queue s' = message_queue s
  | (s', Some bm) =>
      message_queue s' = (message_queue s ++ map snd (filter enqueued [bm]))%list
  end.
Proof.
  destruct e; simpl; try reflexivity;
    try (unfold send_pong; apply send_raw_queue);
    try (rewrite send_raw_queue, app_nil_r; reflexivity).
  - unfold connect_ok, send_handshake. cbv zeta.
    match goal with |- context [if ?b then _ else _] => destruct b end;
      simpl; rewrite send_raw_queue; reflexivity.
  - unfold connect_fail, handle_reconnect; simpl. destruct (is_running s); [|reflexivity].
    by destruct (reconnect_attempts s <? max_reconnect_attempts p).
Qed.

End Traces.

(** [_send_worker] iterated [n] times. *)
Fixpoint worker_cycles (json_dumps : json -> string) (gzip_b64 : string -> string)
    (p : settings) (ok : bool) (ts : string) (n : nat) (s : client) : client :=
  match n with
  | O => s
  | S n' => worker_cycles json_dumps gzip_b64 p ok ts n'
              (snd (send_worker_cycle json_dumps gzip_b64 p ok ts s))
  end.

(** X5: a [_connect] whose handshake send succeeds leaves the client
    connected on the new handle with the reconnect counter reset, the
    handshake (sequence id 0) as the one frame written, and [reconnections]
    counted; if the handshake send fails, the client ends disconnected, the
    reconnect counter is not reset and nothing is written, but the
    reconnection is still counted. *)
Theorem connect_outcomes (json_dumps : json -> string) (gzip_b64 : string -> string)
    (p : settings) (h : nat) (ts : string) (s : client) (n : Z)
    (Hr : stats s !! "reconnections" = Some (JNum n)) :
  let s1 := connect_ok json_dumps gzip_b64 p true h ts s in
  let s2 := connect_ok json_dumps gzip_b64 p false h ts s in
  (is_connected s1 = true /\ websocket s1 = Some h /\ reconnect_attempts s1 = 0
   /\ wire s1 = (wire s ++ [encode json_dumps gzip_b64 (compress_data p)
                              (handshake_envelope p ts)])%list
   /\ stats s1 !! "reconnections" = Some (JNum (n + 1)))
  /\ (is_connected s2 = false /\ reconnect_attempts s2 = reconnect_attempts s
      /\ wire s2 = wire s
      /\ stats s2 !! "reconnections" = Some (JNum (n + 1))).
Proof.
  unfold connect_ok, send_handshake, send_raw_message. cbv zeta. simpl.
  try (rewrite bool_decide_eq_false_2 by discriminate; simpl).
  split.
  - split; [reflexivity|]. split; [reflexivity|]. split; [reflexivity|].
    split; [reflexivity|].
    rewrite !incr_stat_ne by discriminate. apply incr_stat_eq. exact Hr.
  - split; [reflexivity|]. split; [reflexivity|]. split; [reflexivity|].
    rewrite incr_stat_ne by discriminate. apply incr_stat_eq. exact Hr.
Qed.

Lemma connect_outcomes_witness :
  stats fresh_client !! "reconnections" = Some (JNum 0)
  /\ reconnect_attempts
       (connect_ok demo_dumps demo_gzip_b64 default_settings true 7 "t" fresh_client) = 0.
Proof.
  assert (Hr : stats fresh_client !! "reconnections" = Some (JNum 0)) by reflexivity.
  split; [exact Hr|].
  exact (proj1 (proj2 (proj2 (proj1
           (connect_outcomes demo_dumps demo_gzip_b64 default_settings 7 "t"
              fresh_client 0 Hr))))).
Defined.

(** X6: every delay [_handle_reconnect] returns is at most
    [max_reconnect_delay], whatever the counter and the settings, and is
    not negative when both delay settings are not; a reconnect counter
    within [0, max_reconnect_attempts] stays within it. *)
Theorem backoff_bounds (p : settings) (s : client) :
  let '(d, s') := handle_reconnect p s in
  d <= max_reconnect_delay p
  /\ (0 <= reconnect_delay p -> 0 <= max_reconnect_delay p -> 0 <= d)
  /\ (0 <= reconnect_attempts s <= max_reconnect_attempts p ->
      0 <= reconnect_attempts s' <= max_reconnect_attempts p).
Proof.
  unfold handle_reconnect.
  destruct (Z.ltb_spec (reconnect_attempts s) (max_reconnect_attempts p)); simpl.
  - split; [apply Z.le_min_r|]. split; [|lia].
    intros Hd Hm. apply Z.min_glb; [|exact Hm].
    apply Z.mul_nonneg_nonneg; [exact Hd|]. apply Z.pow_nonneg. lia.
  - split; [lia|]. split; [intros; assumption|lia].
Qed.

(** The delay of the [i]-th reconnect after a reset (from 0):
    [min(reconnect_delay * 2^i, max_reconnect_delay)]. *)
Definition nth_backoff_delay (p : settings) (i : nat) : Z :=
  Z.min (reconnect_delay p * 2 ^ Z.of_nat i) (max_reconnect_delay p).

Lemma backoff_schedule_climb p (m j k : nat) s :
  max_reconnect_attempts p = Z.of_nat m ->
  reconnect_attempts s = Z.of_nat j -> (j + k <= m)%nat ->
  backoff_schedule p k s = map (nth_backoff_delay p) (seq j k).
Proof.
  revert s j. induction k as [|k IH]; intros s j Hm Hj Hle; [reflexivity|].
  cbn [backoff_schedule seq map]. unfold handle_reconnect.
  rewrite Hj, Hm, (proj2 (Z.ltb_lt _ _)) by lia. simpl.
  f_equal.
  - unfold nth_backoff_delay. do 3 f_equal. lia.
  - apply IH; [exact Hm| simpl; lia | lia].
Qed.

(** X7: from a reset counter, [_handle_reconnect] raises the counter by one
    per call for [max_reconnect_attempts] calls (1, 2, ..., max), waiting
    [min(reconnect_delay * 2^i, max_reconnect_delay)] before the [i+1]-th
    attempt; the next call waits [max_reconnect_delay] and resets the counter
    to 0, so the delay schedule repeats with period
    [max_reconnect_attempts + 1]. *)
Theorem backoff_schedule_period (p : settings) (m : nat) (s : client) (k : nat)
    (Hm : max_reconnect_attempts p = Z.of_nat m) :
  (forall j, (j <= m)%nat ->
     reconnect_attempts (reconnect_n p j (set_attempts 0 s)) = Z.of_nat j)
  /\ backoff_schedule p (S m) (set_attempts 0 s)
     = (map (nth_backoff_delay p) (seq 0 m) ++ [max_reconnect_delay p])%list
  /\ reconnect_attempts (reconnect_n p (S m) (set_attempts 0 s)) = 0
  /\ backoff_schedule p (S m + k) (set_attempts 0 s)
     = (backoff_schedule p (S m) (set_attempts 0 s)
        ++ backoff_schedule p k (set_attempts 0 s))%list.
Proof.
  assert (Hc : forall j, (j <= m)%nat ->
     reconnect_attempts (reconnect_n p j (set_attempts 0 s)) = Z.of_nat j).
  { intros j Hj. exact (reconnect_n_counts p m 0 j (set_attempts 0 s) Hm eq_refl Hj). }
  assert (Hz : reconnect_attempts (reconnect_n p (S m) (set_attempts 0 s)) = 0).
  { replace (S m) with (m + 1)%nat by lia. rewrite reconnect_n_add.
    simpl. unfold handle_reconnect. rewrite (Hc m (le_n _)), Hm, Z.ltb_irrefl.
    reflexivity. }
  split; [exact Hc|]. split.
  - replace (S m) with (m + 1)%nat by lia. rewrite backoff_schedule_app.
    rewrite (backoff_schedule_climb p m 0 m (set_attempts 0 s) Hm eq_refl (le_n _)).
    f_equal. simpl. unfold handle_reconnect.
    rewrite (Hc m (le_n _)), Hm, Z.ltb_irrefl. reflexivity.
  - split; [exact Hz|].
    rewrite backoff_schedule_app. f_equal.
    apply backoff_schedule_attempts. rewrite Hz. reflexivity.
Qed.

Lemma backoff_schedule_period_witness :
  max_reconnect_attempts default_settings = Z.of_nat 10
  /\ backoff_schedule default_settings 11 (set_attempts 0 fresh_client)
     = [5; 10; 20; 40; 80; 160; 300; 300; 300; 300; 300].
Proof.
  assert (Hm : max_reconnect_attempts default_settings = Z.of_nat 10) by reflexivity.
  split; [exact Hm|].
  rewrite (proj1 (proj2 (backoff_schedule_period default_settings 10 fresh_client 0 Hm))).
  reflexivity.
Defined.

(** X8: one [_heartbeat_worker] iteration does nothing while disconnected;
    while connected it draws the next sequence id, leaves the queue alone,
    and records the timestamp in [stats['last_heartbeat']] whether or not
    the heartbeat send succeeded. *)
Theorem heartbeat_worker_iteration (json_dumps : json -> string)
    (gzip_b64 : string -> string) (p : settings) (ok : bool) (ts : string)
    (t1 t2 : Z) (s : client) :
  match is_connected s with
  | false => heartbeat_cycle json_dumps gzip_b64 p ok ts t1 t2 s = (30, s)
  | true =>
      let '(d, s') := heartbeat_cycle json_dumps gzip_b64 p ok ts t1 t2 s in
      d = 30 /\ stats s' !! "last_heartbeat" = Some (JStr ts)
      /\ sequence_counter s' = sequence_counter s + 1
      /\ message_queue s' = message_queue s
  end.
Proof.
  unfold heartbeat_cycle. destruct (is_connected s); [|reflexivity].
  split; [reflexivity|]. split; [apply lookup_insert_eq|].
  unfold send_heartbeat, new_envelope, get_next_sequence_id. simpl.
  rewrite send_raw_counter, send_raw_queue. split; reflexivity.
Qed.

(** X9: along any sequence of client operations, a number held in the stats
    dict never decreases. *)
Theorem stats_never_decrease (json_dumps : json -> string)
    (gzip_b64 : string -> string) (p : settings) (es : list event) (s : client)
    (k : string) (n : Z) (H : stat_at_least k n (stats s)) :
  stat_at_least k n (stats (run json_dumps gzip_b64 p es s).1).
Proof.
  revert s H. induction es as [|e es IH]; intros s H; simpl; [exact H|].
  pose proof (step_stat_at_least json_dumps gzip_b64 p e s k n H) as He.
  destruct (step json_dumps gzip_b64 p e s) as [s1 o].
  specialize (IH s1 He). destruct (run json_dumps gzip_b64 p es s1) as [s2 ms].
  exact IH.
Qed.

Lemma stats_never_decrease_witness :
  stat_at_least "messages_sent" 0 (stats fresh_client)
  /\ stat_at_least "messages_sent" 0
       (stats (run demo_dumps demo_gzip_b64 default_settings
                 [EvConnectOk true 7 "t"; EvPing false "t"; EvConnectFail] fresh_client).1).
Proof.
  assert (H : stat_at_least "messages_sent" 0 (stats fresh_client)).
  { exists 0. split; [reflexivity|lia]. }
  split; [exact H|].
  exact (stats_never_decrease demo_dumps demo_gzip_b64 default_settings _ _ _ _ H).
Defined.

(** X11: without a send-worker cycle, no operation removes or reorders
    queued envelopes: the final queue is the initial one followed by the
    envelopes the publishers built, in call order (heartbeats and batch
    wrappers are sent directly, never queued). *)
Theorem queue_fifo (json_dumps : json -> string) (gzip_b64 : string -> string)
    (p : settings) (es : list event) (s : client) :
  let '(s', ms) := run json_dumps gzip_b64 p es s in
  message_queue s' = (message_queue s ++ map snd (filter enqueued ms))%list.
Proof.
  revert s. induction es as [|e es IH]; intros s; simpl; [by rewrite app_nil_r|].
  pose proof (step_queue json_dumps gzip_b64 p e s) as He.
  destruct (step json_dumps gzip_b64 p e s) as [s1 [bm|]].
  - specialize (IH s1). destruct (run json_dumps gzip_b64 p es s1) as [s2 ms].
    rewrite IH, He, <- app_assoc, <- map_app. f_equal. f_equal.
    change (bm :: ms) with ([bm] ++ ms)%list. rewrite filter_app. reflexivity.
  - specialize (IH s1). destruct (run json_dumps gzip_b64 p es s1) as [s2 ms].
    rewrite IH, He. reflexivity.
Qed.

(** X12: while the client is disconnected, any number of [_send_worker]
    iterations leave the whole state, queue included, as it was: queued
    envelopes wait for the connection. *)
Theorem send_worker_idle_while_disconnected (json_dumps : json -> string)
    (gzip_b64 : string -> string) (p : settings) (ok : bool) (ts : string)
    (n : nat) (s : client) (Hc : is_connected s = false) :
  worker_cycles json_dumps gzip_b64 p ok ts n s = s.
Proof.
  induction n as [|n IH]; simpl; [reflexivity|].
  unfold send_worker_cycle. rewrite Hc. simpl. exact IH.
Qed.

Lemma send_worker_idle_while_disconnected_witness :
  is_connected (connection_lost client_25_queued) = false
  /\ length (message_queue (worker_cycles demo_dumps demo_gzip_b64 default_settings
                               true "t" 5 (connection_lost client_25_queued))) = 25%nat.
Proof.
  assert (Hc : is_connected (connection_lost client_25_queued) = false) by reflexivity.
  split; [exact Hc|].
  rewrite (send_worker_idle_while_disconnected demo_dumps demo_gzip_b64
             default_settings true "t" 5 _ Hc).
  reflexivity.
Defined.

(** X13: when the send of a dequeued envelope or batch fails, the dequeued
    envelopes are dropped: they are neither written nor put back, the queue
    keeps only the rest, and the client ends disconnected. *)
Theorem failed_send_drops_dequeued (json_dumps : json -> string)
    (gzip_b64 : string -> string) (p : settings) (ts : string) (s : client)
    (Hc : is_connected s = true) (Hw : websocket s <> None)
    (Hq : message_queue s <> []) (Hb : 1 <= batch_size p) :
  let s' := snd (send_worker_cycle json_dumps gzip_b64 p false ts s) in
  message_queue s' = skipn (Z.to_nat (batch_size p)) (message_queue s)
  /\ wire s' = wire s
  /\ is_connected s' = false.
Proof.
  unfold send_worker_cycle. rewrite Hc, bool_decide_eq_false_2 by exact Hq.
  simpl. rewrite collect_firstn_skipn.
  destruct (Z.to_nat (batch_size p)) as [|k] eqn:Ek; [lia|].
  destruct (message_queue s) as [|m q]; [congruence|]. simpl.
  unfold send_raw_message. simpl. rewrite Hc, bool_decide_eq_false_2 by exact Hw.
  destruct (firstn k q) as [|m' ms]; simpl; repeat split; reflexivity.
Qed.

Lemma failed_send_drops_dequeued_witness :
  is_connected client_25_queued = true
  /\ websocket client_25_queued <> None
  /\ message_queue client_25_queued <> []
  /\ 1 <= batch_size default_settings
  /\ length (message_queue (snd (send_worker_cycle demo_dumps demo_gzip_b64
                                   default_settings false "t" client_25_queued)))
     = 15%nat.
Proof.
  assert (Hc : is_connected client_25_queued = true) by reflexivity.
  assert (Hw : websocket client_25_queued <> None) by discriminate.
  assert (Hq : message_queue client_25_queued <> []) by discriminate.
  assert (Hb : 1 <= batch_size default_settings) by (simpl; lia).
  do 4 (split; [assumption|]).
  rewrite (proj1 (failed_send_drops_dequeued demo_dumps demo_gzip_b64
                    default_settings "t" client_25_queued Hc Hw Hq Hb)).
  reflexivity.
Defined.

(** * The data publisher ([data_publisher.py]) *)

(** Python's [l[i:]] for an integer [i]: a negative [i] counts from the end
    (clamped at the start), [l[-0:]] is [l[0:]], the whole list. *)
Definition py_slice_from {A : Type} (i : Z) (l : list A) : list A :=
  if i <? 0 then drop (Z.to_nat (Z.max 0 (Z.of_nat (length l) + i))) l
  else drop (Z.to_nat i) l.

(** [dict.get(key, default)] on a JSON object. *)
Definition get_or (k : string) (d : json) (l : list (string * json)) : json :=
  match obj_get k l with Some v => v | None => d end.

Definition is_obj (v : json) : bool :=
  match v with JObj _ => true | _ => false end.

(** The fields of [PublisherConfig] the publishing methods read. *)
Record PublisherConfig : Type := mkPublisherConfig {
  batch_signals : bool;
  max_history_length : Z
}.

(** [DashboardDataPublisher]: its caches (the client is threaded alongside). *)
Record publisher : Type := mkPublisher {
  signal_cache : list json;
  risk_alerts : list json;
  performance_history : gmap string (list json);
  pub_running : bool
}.

Definition set_signal_cache (c : list json) (u : publisher) : publisher :=
  mkPublisher c (risk_alerts u) (performance_history u) (pub_running u).
Definition set_performance_history (h : gmap string (list json)) (u : publisher)
  : publisher :=
  mkPublisher (signal_cache u) (risk_alerts u) h (pub_running u).

(** [_cleanup_signal_cache]: [self.signal_cache[-max_history_length//2:]],
    where unary minus binds tighter than [//] (floor division). *)
Definition cleanup_signal_cache (mx : Z) (c : list json) : list json :=
  if mx <? Z.of_nat (length c) then py_slice_from ((- mx) / 2) c else c.

(** [formatted_signal] of [publish_trade_signal]; [signal_data.get] raises
    on a value that is not a dict, which the method's [except] swallows. *)
Definition format_signal (ts : string) (strategy_name : option string)
    (signal_data : json) : option json :=
  match signal_data with
  | JObj l =>
      Some (JObj [("timestamp", JStr ts);
                  ("strategy", JStr (match strategy_name with
                                     | Some n => if String.eqb n "" then "unknown" else n
                                     | None => "unknown"
                                     end));
                  ("signal", signal_data);
                  ("confidence", get_or "confidence" (JNum 0) l);
                  ("action", get_or "action" (JStr "HOLD") l);
                  ("symbol", get_or "symbol" (JStr "unknown") l);
                  ("price", get_or "price" (JNum 0) l);
                  ("quantity", get_or "quantity" (JNum 0) l);
                  ("metadata", get_or "metadata" (JObj []) l)])
  | _ => None
  end.

Section Publisher.

Variable pc : PublisherConfig.
Variable p : settings.

(** [publish_trade_signal]: [ts1] is the signal's [datetime.now()], [ts2]
    the envelope's. *)
Definition publish_trade_signal (ts1 ts2 : string) (strategy_name : option string)
    (signal_data : json) (u : publisher) (s : client) : publisher * client :=
  match format_signal ts1 strategy_name signal_data with
  | None => (u, s)
  | Some fs =>
      let s' := snd (send_trade_signal p ts2 fs s) in
      if batch_signals pc
      then (set_signal_cache
              (cleanup_signal_cache (max_history_length pc) (signal_cache u ++ [fs])) u,
            s')
      else (u, s')
  end.

(** Successive [publish_trade_signal] calls. *)
Fixpoint publish_signals (ts1 ts2 : string) (sigs : list (option string * json))
    (u : publisher) (s : client) : publisher * client :=
  match sigs with
  | [] => (u, s)
  | (n, d) :: sigs' =>
      let '(u1, s1) := publish_trade_signal ts1 ts2 n d u s in
      publish_signals ts1 ts2 sigs' u1 s1
  end.

(** [model_perf] of [publish_model_performance]. *)
Definition model_perf (ts : string) (model_name : string) (performance_data : json)
  : option json :=
  match performance_data with
  | JObj l =>
      Some (JObj [("timestamp", JStr ts);
                  ("model_name", JStr model_name);
                  ("performance", performance_data);
                  ("metrics", JObj [("accuracy", get_or "accuracy" (JNum 0) l);
                                    ("precision", get_or "precision" (JNum 0) l);
                                    ("recall", get_or "recall" (JNum 0) l);
                                    ("f1_score", get_or "f1_score" (JNum 0) l);
                                    ("returns", get_or "returns" (JNum 0) l);
                                    ("sharpe", get_or "sharpe" (JNum 0) l)])])
  | _ => None
  end.

(** [publish_model_performance]: append to the model's history, keep its
    last [max_history_length] entries when it grew past that, then queue the
    entry through [send_portfolio_data]. *)
Definition publish_model_performance (ts1 ts2 : string) (model_name : string)
    (performance_data : json) (u : publisher) (s : client) : publisher * client :=
  match model_perf ts1 model_name performance_data with
  | None => (u, s)
  | Some mp =>
      let h := (default [] (performance_history u !! model_name) ++ [mp])%list in
      let h' := if max_history_length pc <? Z.of_nat (length h)
                then py_slice_from (- max_history_length pc) h else h in
      (set_performance_history (<[model_name := h']> (performance_history u)) u,
       snd (send_portfolio_data p ts2 (JObj [("model_performance", mp)]) s))
  end.

End Publisher.

(** One point of [_get_equity_curve_data]. *)
Definition format_point (point : json) : option json :=
  match point with
  | JObj l => Some (JObj [("timestamp", get_or "timestamp" (JStr "") l);
                          ("equity", get_or "equity" (JNum 0) l);
                          ("drawdown", get_or "drawdown" (JNum 0) l)])
  | _ => None
  end.

Fixpoint format_points (pts : list json) : option (list json) :=
  match pts with
  | [] => Some []
  | pt :: pts' =>
      match format_point pt, format_points pts' with
      | Some f, Some fs => Some (f :: fs)
      | _, _ => None
      end
  end.

(** [_get_equity_curve_data] on [equity_data]: the last 100 points
    formatted; an exception (a point that is not a dict) gives [[]]. *)
Definition get_equity_curve_data (equity_data : list json) : list json :=
  match format_points (py_slice_from (-100) equity_data) with
  | Some r => r
  | None => []
  end.

Lemma py_slice_last {A : Type} (c : nat) (l : list A) :
  (1 <= c)%nat -> py_slice_from (- Z.of_nat c) l = drop (length l - c) l.
Proof.
  intros Hc. unfold py_slice_from. rewrite (proj2 (Z.ltb_lt _ _)) by lia.
  f_equal. lia.
Qed.

Lemma neg_half_ceil (mx : Z) :
  1 <= mx ->
  exists c : nat, (1 <= c)%nat /\ (- mx) / 2 = - Z.of_nat c
                  /\ Z.of_nat c = (mx + 1) / 2 /\ Z.of_nat c <= mx.
Proof.
  intros Hm.
  assert (Ha : (- mx) / 2 = - ((mx + 1) / 2)) by (Z.div_mod_to_equations; lia).
  assert (Hb : 1 <= (mx + 1) / 2 <= mx) by (Z.div_mod_to_equations; lia).
  exists (Z.to_nat ((mx + 1) / 2)). rewrite Ha. repeat split; lia.
Qed.

Lemma cleanup_signal_cache_len (mx : Z) (l : list json) (x : json) :
  1 <= mx -> Z.of_nat (length l) <= mx ->
  Z.of_nat (length (cleanup_signal_cache mx (l ++ [x]))) <= mx.
Proof.
  intros Hm Hl. unfold cleanup_signal_cache. rewrite length_app. simpl.
  destruct (Z.ltb_spec mx (Z.of_nat (length l + 1))).
  - destruct (neg_half_ceil mx Hm) as (c & Hc1 & Hc2 & Hc3 & Hc4).
    rewrite Hc2, py_slice_last by exact Hc1. rewrite length_drop, length_app. simpl. lia.
  - rewrite length_app. simpl. lia.
Qed.

Lemma cleanup_signal_cache_zero (l : list json) : cleanup_signal_cache 0 l = l.
Proof.
  unfold cleanup_signal_cache. destruct (0 <? Z.of_nat (length l)); reflexivity.
Qed.

Lemma format_points_length (pts : list json) :
  match format_points pts with
  | Some r => forallb is_obj pts = true /\ length r = length pts
  | None => forallb is_obj pts = false
  end.
Proof.
  induction pts as [|pt pts IH]; simpl; [split; reflexivity|].
  destruct pt; simpl; try reflexivity.
  destruct (format_points pts) as [r|]; simpl; [|exact IH].
  destruct IH as [-> ->]. split; reflexivity.
Qed.

Definition empty_publisher : publisher := mkPublisher [] [] ∅ false.

(** A [PublisherConfig] with a small history bound. *)
Definition small_history_config : PublisherConfig := mkPublisherConfig true 3.

(** X14: [_cleanup_signal_cache] run after an append to a cache within
    [max_history_length >= 1] keeps a suffix ending with the new entry; it
    keeps everything while the bound is not exceeded and cuts the cache down
    to [ceil(max_history_length / 2)] entries when it is. *)
Theorem cleanup_signal_cache_suffix (mx : Z) (l : list json) (x : json)
    (Hm : 1 <= mx) (Hl : Z.of_nat (length l) <= mx) :
  let c := cleanup_signal_cache mx (l ++ [x])%list in
  c `suffix_of` (l ++ [x])%list
  /\ (exists older, c = (older ++ [x])%list)
  /\ Z.of_nat (length c)
     = if Z.of_nat (length l) <? mx then Z.of_nat (length l) + 1 else (mx + 1) / 2.
Proof.
  unfold cleanup_signal_cache. rewrite length_app. simpl.
  destruct (Z.ltb_spec (Z.of_nat (length l)) mx).
  - rewrite (proj2 (Z.ltb_ge mx (Z.of_nat (length l + 1)))) by lia.
    split; [reflexivity|]. split; [exists l; reflexivity|].
    rewrite length_app. simpl. lia.
  - rewrite (proj2 (Z.ltb_lt mx (Z.of_nat (length l + 1)))) by lia.
    destruct (neg_half_ceil mx Hm) as (c & Hc1 & Hc2 & Hc3 & Hc4).
    rewrite Hc2, py_slice_last by exact Hc1. rewrite length_app. simpl.
    split; [apply suffix_drop|]. split.
    + rewrite drop_app_le by lia. eexists. reflexivity.
    + rewrite length_drop, length_app. simpl. lia.
Qed.

Lemma cleanup_signal_cache_suffix_witness :
  1 <= 3 /\ Z.of_nat (length [JNum 1; JNum 2; JNum 3]) <= 3
  /\ cleanup_signal_cache 3 ([JNum 1; JNum 2; JNum 3] ++ [JNum 4])%list
     `suffix_of` ([JNum 1; JNum 2; JNum 3] ++ [JNum 4])%list.
Proof.
  assert (Hm : 1 <= 3) by lia.
  assert (Hl : Z.of_nat (length [JNum 1; JNum 2; JNum 3]) <= 3) by (simpl; lia).
  split; [exact Hm|]. split; [exact Hl|].
  exact (proj1 (cleanup_signal_cache_suffix 3 _ (JNum 4) Hm Hl)).
Defined.

(** X15: over any sequence of [publish_trade_signal] calls, a signal cache
    within [max_history_length >= 1] stays within it, the client queue
    gains exactly one envelope per signal that is a dict (a non-dict signal
    is dropped by the [except]), and without [batch_signals] the cache is
    never touched. *)
Theorem publish_signals_bounded (pc : PublisherConfig) (p : settings)
    (ts1 ts2 : string) (sigs : list (option string * json)) (u : publisher)
    (s : client) (Hm : 1 <= max_history_length pc)
    (Hl : Z.of_nat (length (signal_cache u)) <= max_history_length pc) :
  let '(u', s') := publish_signals pc p ts1 ts2 sigs u s in
  Z.of_nat (length (signal_cache u')) <= max_history_length pc
  /\ length (message_queue s')
     = (length (message_queue s) + length (List.filter (fun x => is_obj x.2) sigs))%nat
  /\ (batch_signals pc = false -> signal_cache u' = signal_cache u).
Proof.
  revert u s Hl. induction sigs as [|[n d] sigs IH]; intros u s Hl; simpl.
  - split; [exact Hl|]. split; [lia|reflexivity].
  - unfold publish_trade_signal. destruct d; simpl; try apply IH; try exact Hl.
    destruct (batch_signals pc) eqn:Eb.
    + match goal with
      |- context [publish_signals pc p ts1 ts2 sigs ?u1 ?s1] =>
        specialize (IH u1 s1)
      end.
      destruct (publish_signals _ _ _ _ _ _ _) as [u' s'].
      destruct IH as (IH1 & IH2 & IH3).
      { simpl. apply cleanup_signal_cache_len; [exact Hm|exact Hl]. }
      split; [exact IH1|]. split; [|discriminate].
      rewrite IH2. simpl. rewrite length_app. simpl. lia.
    + match goal with
      |- context [publish_signals pc p ts1 ts2 sigs ?u1 ?s1] =>
        specialize (IH u1 s1 Hl)
      end.
      destruct (publish_signals _ _ _ _ _ _ _) as [u' s'].
      destruct IH as (IH1 & IH2 & IH3).
      split; [exact IH1|]. split; [|exact IH3].
      rewrite IH2. simpl. rewrite length_app. simpl. lia.
Qed.

Lemma publish_signals_bounded_witness :
  1 <= max_history_length small_history_config
  /\ Z.of_nat (length (signal_cache empty_publisher))
     <= max_history_length small_history_config
  /\ Z.of_nat (length (signal_cache
       (publish_signals small_history_config default_settings
          "t" "t" [(None, JObj []); (None, JObj []); (None, JObj []); (None, JObj []);
                   (Some "mom", JObj [])] empty_publisher fresh_client).1))
     <= 3.
Proof.
  assert (Hm : 1 <= max_history_length small_history_config) by (simpl; lia).
  assert (Hl : Z.of_nat (length (signal_cache empty_publisher))
               <= max_history_length small_history_config) by (simpl; lia).
  split; [exact Hm|]. split; [exact Hl|].
  pose proof (publish_signals_bounded small_history_config
                default_settings "t" "t"
                [(None, JObj []); (None, JObj []); (None, JObj []); (None, JObj []);
                 (Some "mom", JObj [])] empty_publisher fresh_client Hm Hl) as H.
  revert H. destruct (publish_signals _ _ _ _ _ _ _) as [u' s'].
  intros H. exact (proj1 H).
Defined.

(** X16: with [max_history_length = 0], [-0//2] is 0 and [cache[0:]] is
    the whole cache, so [_cleanup_signal_cache] never trims: with
    [batch_signals] on, every dict signal published stays cached. *)
Theorem signal_cache_unbounded_at_zero (pc : PublisherConfig) (p : settings)
    (ts1 ts2 : string) (sigs : list (option string * json)) (u : publisher)
    (s : client) (Hz : max_history_length pc = 0) (Hb : batch_signals pc = true) :
  length (signal_cache (publish_signals pc p ts1 ts2 sigs u s).1)
  = (length (signal_cache u) + length (List.filter (fun x => is_obj x.2) sigs))%nat.
Proof.
  revert u s. induction sigs as [|[n d] sigs IH]; intros u s; simpl; [lia|].
  unfold publish_trade_signal. destruct d; simpl; try apply IH.
  rewrite Hb, IH. simpl. rewrite Hz, cleanup_signal_cache_zero, length_app. simpl. lia.
Qed.

Lemma signal_cache_unbounded_at_zero_witness :
  max_history_length (mkPublisherConfig true 0) = 0
  /\ batch_signals (mkPublisherConfig true 0) = true
  /\ length (signal_cache (publish_signals
       (mkPublisherConfig true 0) default_settings "t" "t"
       [(None, JObj []); (None, JObj []); (None, JObj [])] empty_publisher
       fresh_client).1) = 3%nat.
Proof.
  assert (Hz : max_history_length (mkPublisherConfig true 0) = 0) by reflexivity.
  assert (Hb : batch_signals (mkPublisherConfig true 0) = true) by reflexivity.
  split; [exact Hz|]. split; [exact Hb|].
  rewrite (signal_cache_unbounded_at_zero _ default_settings
             "t" "t" [(None, JObj []); (None, JObj []); (None, JObj [])]
             empty_publisher fresh_client Hz Hb).
  reflexivity.
Defined.

(** X17: with [max_history_length >= 1], publishing a dict of performance
    data for a model appends the entry [model_perf] builds from it to that
    model's history (created empty when missing): the new history is the
    last [min(old length + 1, max_history_length)] entries of the old
    history followed by the new entry, every other model's history is left
    alone, and one [portfolio_update] envelope carrying the entry under
    [model_performance] is queued. *)
Theorem model_history_trimmed (pc : PublisherConfig) (p : settings)
    (ts1 ts2 model_name : string) (performance_data mp : json) (u : publisher)
    (s : client) (Hm : 1 <= max_history_length pc)
    (Hmp : model_perf ts1 model_name performance_data = Some mp) :
  let old := default [] (performance_history u !! model_name) in
  let '(u', s') := publish_model_performance pc p ts1 ts2 model_name
                     performance_data u s in
  (exists h', performance_history u' !! model_name = Some h'
      /\ h' `suffix_of` (old ++ [mp])%list
      /\ (exists older, h' = (older ++ [mp])%list /\ older `suffix_of` old)
      /\ Z.of_nat (length h')
         = Z.min (Z.of_nat (length old) + 1) (max_history_length pc))
  /\ message_queue s'
     = (message_queue s
        ++ [mkMessage "portfolio_update" ts2 (JObj [("model_performance", mp)])
              (client_system_id p) (sequence_counter s + 1)])%list
  /\ (forall other, other <> model_name ->
      performance_history u' !! other = performance_history u !! other).
Proof.
  intros old. unfold publish_model_performance. rewrite Hmp. fold old.
  simpl. split; [|split; [reflexivity|]].
  - rewrite lookup_insert_eq. eexists. split; [reflexivity|].
    destruct (Z.ltb_spec (max_history_length pc) (Z.of_nat (length (old ++ [mp])%list))).
    + rewrite length_app in *. simpl in *.
      replace (max_history_length pc) with (Z.of_nat (Z.to_nat (max_history_length pc)))
        by lia.
      rewrite py_slice_last by lia. rewrite length_app. simpl.
      split; [apply suffix_drop|].
      rewrite drop_app_le by lia. split.
      * eexists. split; [reflexivity|]. apply suffix_drop.
      * rewrite length_app, length_drop. simpl. lia.
    + split; [reflexivity|]. split.
      * exists old. split; reflexivity.
      * rewrite length_app in *. simpl in *. lia.
  - intros other Hne. apply lookup_insert_ne. congruence.
Qed.

Lemma model_history_trimmed_witness :
  1 <= max_history_length small_history_config
  /\ model_perf "t" "lstm" (JObj [("accuracy", JNum 1)])
     = Some (JObj [("timestamp", JStr "t"); ("model_name", JStr "lstm");
                   ("performance", JObj [("accuracy", JNum 1)]);
                   ("metrics", JObj [("accuracy", JNum 1); ("precision", JNum 0);
                                     ("recall", JNum 0); ("f1_score", JNum 0);
                                     ("returns", JNum 0); ("sharpe", JNum 0)])])
  /\ exists h',
       performance_history
         (publish_model_performance small_history_config default_settings "t" "t" "lstm"
            (JObj [("accuracy", JNum 1)])
            (set_performance_history (<["lstm" := [JNum 1; JNum 2; JNum 3]]> ∅)
               empty_publisher)
            fresh_client).1 !! "lstm" = Some h'
       /\ Z.of_nat (length h') = 3.
Proof.
  assert (Hm : 1 <= max_history_length small_history_config) by (simpl; lia).
  assert (Hmp : model_perf "t" "lstm" (JObj [("accuracy", JNum 1)])
     = Some (JObj [("timestamp", JStr "t"); ("model_name", JStr "lstm");
                   ("performance", JObj [("accuracy", JNum 1)]);
                   ("metrics", JObj [("accuracy", JNum 1); ("precision", JNum 0);
                                     ("recall", JNum 0); ("f1_score", JNum 0);
                                     ("returns", JNum 0); ("sharpe", JNum 0)])]))
    by reflexivity.
  split; [exact Hm|]. split; [exact Hmp|].
  pose proof (model_history_trimmed small_history_config default_settings "t" "t" "lstm"
                _ _ (set_performance_history
                       (<["lstm" := [JNum 1; JNum 2; JNum 3]]> ∅) empty_publisher)
                fresh_client Hm Hmp) as H.
  revert H. cbv zeta.
  destruct (publish_model_performance _ _ _ _ _ _ _ _) as [u' s'].
  intros [(h' & H1 & _ & _ & H2) _].
  exists h'. split; [exact H1|]. rewrite H2. reflexivity.
Defined.

(** X18: [_get_equity_curve_data] returns [min(100, len)] points when every
    one of the last 100 points is a dict, and nothing at all when any one of
    them is not: a single malformed recent point empties the whole curve. *)
Theorem equity_curve_length (equity_data : list json) :
  length (get_equity_curve_data equity_data)
  = if forallb is_obj (py_slice_from (-100) equity_data)
    then Nat.min 100 (length equity_data) else 0%nat.
Proof.
  unfold get_equity_curve_data.
  pose proof (format_points_length (py_slice_from (-100) equity_data)) as H.
  destruct (format_points (py_slice_from (-100) equity_data)) as [r|].
  - destruct H as [-> ->].
    change (-100) with (- Z.of_nat 100). rewrite py_slice_last by lia.
    rewrite length_drop. lia.
  - rewrite H. reflexivity.
Qed.

(** X19: only the last 100 points are read: once there are at least 100
    of them, older points (well formed or not) do not change the curve. *)
Theorem equity_curve_ignores_older (older equity_data : list json)
    (H : (100 <= length equity_data)%nat) :
  get_equity_curve_data (older ++ equity_data)%list = get_equity_curve_data equity_data.
Proof.
  unfold get_equity_curve_data.
  change (-100) with (- Z.of_nat 100). rewrite !py_slice_last by lia.
  rewrite length_app, drop_app_ge by lia.
  replace (length older + length equity_data - 100 - length older)%nat
    with (length equity_data - 100)%nat by lia.
  reflexivity.
Qed.

Lemma equity_curve_ignores_older_witness :
  (100 <= length (repeat (JObj []) 100))%nat
  /\ get_equity_curve_data ([JNull] ++ repeat (JObj []) 100)%list
     = get_equity_curve_data (repeat (JObj []) 100).
Proof.
  assert (H : (100 <= length (repeat (JObj []) 100))%nat) by (rewrite repeat_length; lia).
  split; [exact H|].
  exact (equity_curve_ignores_older [JNull] _ H).
Defined.

(** * Dashboard configuration ([dashboard_config.py]) *)

(** The Python values a configuration dict holds. *)
Inductive pyval : Type :=
| PyNone
| PyBool (b : bool)
| PyInt (z : Z)
| PyFloat (q : Q)
| PyStr (s : string)
| PyDict (l : list (string * pyval)).

Fixpoint py_lookup (k : string) (l : list (string * pyval)) : option pyval :=
  match l with
  | [] => None
  | (k', v) :: l' => if String.eqb k k' then Some v else py_lookup k l'
  end.

(** [v.get(k, d)]: [None] when [v] is not a dict ([AttributeError]). *)
Definition py_get (k : string) (d : pyval) (v : pyval) : option pyval :=
  match v with
  | PyDict l => Some (match py_lookup k l with Some x => x | None => d end)
  | _ => None
  end.

(** [@dataclass DashboardConfig] (fields prefixed [dc_]). *)
Record DashboardConfig : Type := mkDashboardConfig {
  dc_dashboard_url : pyval;
  dc_api_key : pyval;
  dc_system_id : pyval;
  dc_auto_connect : pyval;
  dc_max_reconnect_attempts : pyval;
  dc_reconnect_delay : pyval;
  dc_max_reconnect_delay : pyval;
  dc_connection_timeout : pyval;
  dc_send_interval : pyval;
  dc_portfolio_update_interval : pyval;
  dc_batch_size : pyval;
  dc_compress_data : pyval;
  dc_max_history_length : pyval;
  dc_publish_portfolio : pyval;
  dc_publish_signals : pyval;
  dc_publish_risk_alerts : pyval;
  dc_publish_model_performance : pyval;
  dc_publish_system_status : pyval;
  dc_enable_ssl : pyval;
  dc_verify_ssl : pyval;
  dc_log_connection_events : pyval;
  dc_log_data_publishing : pyval
}.

(** [DashboardConfig()]: the dataclass defaults. *)
Definition DashboardConfig_default : DashboardConfig :=
  mkDashboardConfig
    (PyStr "wss://your-dashboard-domain.com/ws/trading") (PyStr "")
    (PyStr "nexus_ai_local") (PyBool true)
    (PyInt 10) (PyFloat (5 # 1)) (PyFloat (300 # 1)) (PyFloat (30 # 1))
    (PyFloat (2 # 1)) (PyFloat (5 # 1)) (PyInt 10) (PyBool true) (PyInt 1000)
    (PyBool true) (PyBool true) (PyBool true) (PyBool true) (PyBool true)
    (PyBool true) (PyBool false)
    (PyBool true) (PyBool false).

Definition with_dashboard_url (url : pyval) (c : DashboardConfig) : DashboardConfig :=
  mkDashboardConfig url (dc_api_key c) (dc_system_id c) (dc_auto_connect c)
    (dc_max_reconnect_attempts c) (dc_reconnect_delay c) (dc_max_reconnect_delay c)
    (dc_connection_timeout c) (dc_send_interval c) (dc_portfolio_update_interval c)
    (dc_batch_size c) (dc_compress_data c) (dc_max_history_length c)
    (dc_publish_portfolio c) (dc_publish_signals c) (dc_publish_risk_alerts c)
    (dc_publish_model_performance c) (dc_publish_system_status c)
    (dc_enable_ssl c) (dc_verify_ssl c)
    (dc_log_connection_events c) (dc_log_data_publishing c).

(** [get_default_dashboard_config()] *)
Definition get_default_dashboard_config : pyval :=
  PyDict [("dashboard", PyDict [
    ("enabled", PyBool false);
    ("url", PyStr "wss://your-dashboard-domain.com/ws/trading");
    ("api_key", PyStr "");
    ("system_id", PyStr "nexus_ai_local");
    ("auto_connect", PyBool true);
    ("connection", PyDict [
       ("max_reconnect_attempts", PyInt 10);
       ("reconnect_delay", PyFloat (5 # 1));
       ("max_reconnect_delay", PyFloat (300 # 1));
       ("timeout", PyFloat (30 # 1));
       ("enable_ssl", PyBool true);
       ("verify_ssl", PyBool false)]);
    ("publishing", PyDict [
       ("send_interval", PyFloat (2 # 1));
       ("portfolio_update_interval", PyFloat (5 # 1));
       ("batch_size", PyInt 10);
       ("compress_data", PyBool true);
       ("max_history_length", PyInt 1000)]);
    ("data_types", PyDict [
       ("portfolio", PyBool true);
       ("signals", PyBool true);
       ("risk_alerts", PyBool true);
       ("model_performance", PyBool true);
       ("system_status", PyBool true)]);
    ("logging", PyDict [
       ("connection_events", PyBool true);
       ("data_publishing", PyBool false)])])].

(** [load_dashboard_config_from_dict]; [None] when a [.get] is applied to a
    value that is not a dict. *)
Definition load_dashboard_config_from_dict (config_dict : pyval)
  : option DashboardConfig :=
  dashboard_section ← py_get "dashboard" (PyDict []) config_dict;
  connection_section ← py_get "connection" (PyDict []) dashboard_section;
  publishing_section ← py_get "publishing" (PyDict []) dashboard_section;
  data_types_section ← py_get "data_types" (PyDict []) dashboard_section;
  logging_section ← py_get "logging" (PyDict []) dashboard_section;
  dashboard_url ← py_get "url" (PyStr "wss://localhost:8080/ws/trading") dashboard_section;
  api_key ← py_get "api_key" (PyStr "") dashboard_section;
  system_id ← py_get "system_id" (PyStr "nexus_ai_local") dashboard_section;
  auto_connect ← py_get "auto_connect" (PyBool true) dashboard_section;
  max_reconnect_attempts ← py_get "max_reconnect_attempts" (PyInt 10) connection_section;
  reconnect_delay ← py_get "reconnect_delay" (PyFloat (5 # 1)) connection_section;
  max_reconnect_delay ← py_get "max_reconnect_delay" (PyFloat (300 # 1)) connection_section;
  connection_timeout ← py_get "timeout" (PyFloat (30 # 1)) connection_section;
  send_interval ← py_get "send_interval" (PyFloat (2 # 1)) publishing_section;
  portfolio_update_interval ←
    py_get "portfolio_update_interval" (PyFloat (5 # 1)) publishing_section;
  batch_size ← py_get "batch_size" (PyInt 10) publishing_section;
  compress_data ← py_get "compress_data" (PyBool true) publishing_section;
  max_history_length ← py_get "max_history_length" (PyInt 1000) publishing_section;
  publish_portfolio ← py_get "portfolio" (PyBool true) data_types_section;
  publish_signals ← py_get "signals" (PyBool true) data_types_section;
  publish_risk_alerts ← py_get "risk_alerts" (PyBool true) data_types_section;
  publish_model_performance ← py_get "model_performance" (PyBool true) data_types_section;
  publish_system_status ← py_get "system_status" (PyBool true) data_types_section;
  enable_ssl ← py_get "enable_ssl" (PyBool true) connection_section;
  verify_ssl ← py_get "verify_ssl" (PyBool false) connection_section;
  log_connection_events ← py_get "connection_events" (PyBool true) logging_section;
  log_data_publishing ← py_get "data_publishing" (PyBool false) logging_section;
  Some (mkDashboardConfig dashboard_url api_key system_id auto_connect
          max_reconnect_attempts reconnect_delay max_reconnect_delay connection_timeout
          send_interval portfolio_update_interval batch_size compress_data
          max_history_length publish_portfolio publish_signals publish_risk_alerts
          publish_model_performance publish_system_status enable_ssl verify_ssl
          log_connection_events log_data_publishing).

(** X20: a dict without a [dashboard] section loads to the dataclass
    defaults except [dashboard_url], whose fallback in the loader
    ([wss://localhost:8080/ws/trading]) differs from the dataclass default;
    [get_default_dashboard_config()] loads to exactly [DashboardConfig()]. *)
Theorem load_config_defaults (d : list (string * pyval))
    (Hd : py_lookup "dashboard" d = None) :
  load_dashboard_config_from_dict (PyDict d)
  = Some (with_dashboard_url (PyStr "wss://localhost:8080/ws/trading")
            DashboardConfig_default)
  /\ dc_dashboard_url DashboardConfig_default <> PyStr "wss://localhost:8080/ws/trading"
  /\ load_dashboard_config_from_dict get_default_dashboard_config
     = Some DashboardConfig_default.
Proof.
  split; [|split; [discriminate|reflexivity]].
  unfold load_dashboard_config_from_dict. simpl. rewrite Hd. reflexivity.
Qed.

Lemma load_config_defaults_witness :
  py_lookup "dashboard" [("logging", PyDict [])] = None
  /\ load_dashboard_config_from_dict (PyDict [("logging", PyDict [])])
     = Some (with_dashboard_url (PyStr "wss://localhost:8080/ws/trading")
               DashboardConfig_default).
Proof.
  assert (Hd : py_lookup "dashboard" [("logging", PyDict [])] = None) by reflexivity.
  split; [exact Hd|].
  exact (proj1 (load_config_defaults _ Hd)).
Defined.

(** X21: the loader never reads the [enabled] flag of the [dashboard]
    section ([DashboardConfig] has no such field): adding or changing it
    does not change the loaded configuration. *)
Theorem load_config_ignores_enabled (b : pyval) (sec rest : list (string * pyval)) :
  load_dashboard_config_from_dict
    (PyDict (("dashboard", PyDict (("enabled", b) :: sec)) :: rest))
  = load_dashboard_config_from_dict (PyDict (("dashboard", PyDict sec) :: rest)).
Proof. reflexivity. Qed.
